(** * Instant-NGP data parser with depth maps: model and properties

    A shallow embedding of
    [nerfstudio/data/dataparsers/instant_ngp_with_depths_dataparser.py].

    Conventions of the model.
    - Python floats (and numpy float32/float64 entries) are real numbers;
      [float(...)] and [astype(np.float32)] are the identity on values.
      The only non-finite values the parser can create come from a numpy
      division by zero; they are kept apart as [NonFinite].
    - Exceptions are values of [exn]; a computation that may raise has
      type [result A].
    - The filesystem is read-only external state, passed as a record of
      two partial loaders ([np.load] and [imageio.imread]); a file that
      cannot be read raises [OSError].
    - The console is the list of lines printed.
    - [Cameras], [SceneBox] and [DataparserOutputs] are records of the
      arguments their constructors receive; [get_distortion_params] is a
      parameter. *)

From Stdlib Require Import Reals Lra Lia ZArith Ascii String.
From stdpp Require Import base strings list gmap pretty.

(** * Part I: the model *)

(** ** Python exceptions and results *)

Inductive exn : Type :=
  | KeyError (key : string)
  | IndexError
  | ValueError
  | AssertionError
  | AttributeError (msg : string)
  | OSError.

Inductive result (A : Type) : Type :=
  | Ok (a : A)
  | Raise (e : exn).
Arguments Ok {A} a.
Arguments Raise {A} e.

#[global] Instance result_ret : MRet result := fun A a => Ok a.
#[global] Instance result_bind : MBind result := fun A B k m =>
  match m with
  | Ok a => k a
  | Raise e => Raise e
  end.

Definition of_option {A : Type} (e : exn) (o : option A) : result A :=
  match o with
  | Some a => Ok a
  | None => Raise e
  end.

#[global] Instance R_eq_dec : EqDecision R := Req_dec_T.

(** ** Python strings, sequences, dicts and numbers *)

Module Py.

(** [s[:stop]] for a string, with Python's treatment of a negative or
    too large [stop]. *)
Definition slice_to (s : string) (stop : Z) : string :=
  let len := Z.of_nat (String.length s) in
  let hi := if (stop <? 0)%Z then Z.max 0 (len + stop) else Z.min stop len in
  String.substring 0 (Z.to_nat hi) s.

(** [l[i]] for a list, with negative indices counted from the end. *)
Definition getitem {A : Type} (l : list A) (i : Z) : result A :=
  let len := Z.of_nat (length l) in
  if ((0 <=? i) && (i <? len))%Z then of_option IndexError (l !! Z.to_nat i)
  else if ((- len <=? i) && (i <? 0))%Z
       then of_option IndexError (l !! Z.to_nat (len + i))
       else Raise IndexError.

(** [d[k]] for a dict. *)
Definition dict_getitem {V : Type} (d : gmap string V) (k : string) : result V :=
  of_option (KeyError k) (d !! k).

(** [k in d]. *)
Definition contains {V : Type} (d : gmap string V) (k : string) : bool :=
  bool_decide (is_Some (d !! k)).

(** [int(x)] for a float: truncation towards zero. *)
Definition int (x : R) : Z :=
  if Rle_dec 0 x then Int_part x else (- Int_part (- x))%Z.

(** [a, b = t] for a tuple [t]. *)
Definition unpack2 {A : Type} (t : list A) : result (A * A) :=
  match t with
  | [a; b] => Ok (a, b)
  | _ => Raise ValueError
  end.

End Py.

(** ** pathlib *)

Module pathlib.

(** A pure POSIX path: whether it is anchored at the root, and its
    components. *)
Record Path : Type := mkPath { anchored : bool; parts : list string }.

Fixpoint split_slash (s : string) (cur : string) : list string :=
  match s with
  | EmptyString => [cur]
  | String c s' =>
      if Ascii.eqb c "/"%char then cur :: split_slash s' EmptyString
      else split_slash s' (cur +:+ String c EmptyString)
  end.

Definition is_component (p : string) : bool :=
  negb (String.eqb p "" || String.eqb p ".").

(** [Path(s)]: empty and "." components are dropped. *)
Definition of_string (s : string) : Path :=
  {| anchored := match s with String c _ => Ascii.eqb c "/"%char | _ => false end;
     parts := List.filter is_component (split_slash s EmptyString) |}.

(** [a / b], for [b] a path or a string already turned into one. *)
Definition truediv (a b : Path) : Path :=
  if anchored b then b
  else {| anchored := anchored a; parts := parts a ++ parts b |}.

(** [bool(p)]: [PurePath] defines neither [__bool__] nor [__len__], so
    every path object is truthy. *)
Definition truthy (p : Path) : bool := true.

#[global] Instance Path_eq_dec : EqDecision Path.
Proof. solve_decision. Defined.

End pathlib.
Export pathlib.

Infix "//" := pathlib.truediv (at level 40, left associativity).

(** ** numpy *)

Module np.

(** An n-dimensional array, as nested sequences. *)
#[warnings="-register-all"]
Inductive ndarray : Type :=
  | Scalar (x : R)
  | Array (items : list ndarray).

(** [a[i]] along the first axis. *)
Definition getitem (a : ndarray) (i : Z) : result ndarray :=
  match a with
  | Scalar _ => Raise IndexError
  | Array items => Py.getitem items i
  end.

(** A float64 produced by numpy arithmetic: a real number, or one of
    inf, -inf and nan. *)
Inductive float64 : Type :=
  | Fin (x : R)
  | NonFinite.

(** [a / b] on float64: division by zero gives a non-finite value (and
    a warning), not an exception. *)
Definition divide (a b : R) : float64 :=
  if decide (b = 0%R) then NonFinite else Fin (a / b).

Definition deg2rad (x : R) : R := (x * (PI / 180))%R.

Definition tanh (x : R) : R := Rtrigo_def.tanh x.

(** [x == 0]. *)
Definition eq_zero (x : float64) : bool :=
  match x with
  | Fin r => bool_decide (r = 0%R)
  | NonFinite => false
  end.

(** A 2-D array of floats, row-major. *)
Abbreviation matrix := (list (list R)).

Definition regular {A : Type} (rows : list (list A)) : bool :=
  match rows with
  | [] => true
  | r :: rs => forallb (fun r' => length r' =? length r) rs
  end.

(** [np.array(m)] for a nested list of numbers: rows of unequal length
    are refused (numpy 1.24 and later). *)
Definition array2 (m : list (list R)) : result matrix :=
  if regular m then Ok m else Raise ValueError.

Definition shape2 (m : matrix) : list nat :=
  match m with
  | [] => [0]
  | r :: _ => [length m; length r]
  end.

(** [np.array(ms).astype(np.float32)] for a list of arrays: they must
    all have one shape. *)
Definition array3 (ms : list matrix) : result (list matrix) :=
  match ms with
  | [] => Ok []
  | m :: rest =>
      if forallb (fun m' => bool_decide (shape2 m' = shape2 m)) rest
      then Ok ms else Raise ValueError
  end.

(** [a[:, :3, 3] *= s] on a stacked array: needs three axes and a
    column 3. *)
Definition imul_translation (s : R) (a : list matrix) : result (list matrix) :=
  match a with
  | (r :: _) :: _ =>
      if 3 <? length r
      then Ok (imap (fun i row =>
                      if i <? 3 then alter (fun x => (x * s)%R) 3 row else row) <$> a)
      else Raise IndexError
  | _ => Raise IndexError
  end.

(** [a[:, :3]]. *)
Definition top3 (a : list matrix) : list matrix := take 3 <$> a.

End np.

(** ** The filesystem and the collaborators outside this file *)

(** A decoded image: its shape and its pixel data. *)
Record Image : Type := mkImage { img_shape : list nat; img_data : np.ndarray }.

Record FileSystem : Type := mkFS {
  np_load : Path -> option np.ndarray;
  imageio_imread : Path -> option Image
}.

Inductive CameraType : Type := PERSPECTIVE | FISHEYE.

Record SceneBox : Type := mkSceneBox { aabb : list (list R) }.

(** ** The manifest and the parser configuration *)

Record Frame : Type := mkFrame {
  file_path : string;
  transform_matrix : list (list R)
}.

(** [transforms.json] once loaded: the frame array, and the scalar
    entries by key. The keys "frames", "file_path" and "transform_matrix"
    are taken to be present; a scalar key may be absent, and reading it
    then raises [KeyError]. *)
Record Meta : Type := mkMeta {
  frames : list Frame;
  fields : gmap string R
}.

Record InstantNGPWithDepthsDataParserConfig : Type := mkConfig {
  data : Path;
  scale_factor : R;
  scene_scale : R
}.

(** ** Focal lengths (lines 139-169) *)

Definition focal_msg : string :=
  "Focal length cannot be calculated from transforms.json (missing fields).".

Definition fov_to_focal_length (rad res : R) : np.float64 :=
  np.divide (0.5 * res) (np.tanh (0.5 * rad)).

(** The if/elif chain of lines 152-157. *)
Definition resolve_fl_x (meta : gmap string R) : result np.float64 :=
  if Py.contains meta "fl_x" then
    v ← Py.dict_getitem meta "fl_x"; Ok (np.Fin v)
  else if Py.contains meta "x_fov" then
    d ← Py.dict_getitem meta "x_fov";
    w ← Py.dict_getitem meta "w";
    Ok (fov_to_focal_length (np.deg2rad d) w)
  else if Py.contains meta "camera_angle_x" then
    a ← Py.dict_getitem meta "camera_angle_x";
    w ← Py.dict_getitem meta "w";
    Ok (fov_to_focal_length a w)
  else Ok (np.Fin 0).

(** The if/elif chain of lines 159-164. *)
Definition resolve_fl_y (meta : gmap string R) : result np.float64 :=
  if Py.contains meta "fl_y" then
    v ← Py.dict_getitem meta "fl_y"; Ok (np.Fin v)
  else if Py.contains meta "y_fov" then
    d ← Py.dict_getitem meta "y_fov";
    h ← Py.dict_getitem meta "h";
    Ok (fov_to_focal_length (np.deg2rad d) h)
  else if Py.contains meta "camera_angle_y" then
    a ← Py.dict_getitem meta "camera_angle_y";
    h ← Py.dict_getitem meta "h";
    Ok (fov_to_focal_length a h)
  else Ok (np.Fin 0).

Definition get_focal_lengths (meta : gmap string R) : result (np.float64 * np.float64) :=
  fl_x ← resolve_fl_x meta;
  fl_y ← resolve_fl_y meta;
  if np.eq_zero fl_x || np.eq_zero fl_y
  then Raise (AttributeError focal_msg)
  else Ok (fl_x, fl_y).

(** ** The depth lookup (lines 54-61) *)

Definition get_depths (image_idx : Z) (depths : list np.ndarray)
  : result (gmap string np.ndarray) :=
  d ← Py.getitem depths image_idx;
  Ok {[ "depth" := d ]}.

(** The value stored for one entry of [additional_inputs]: a function
    and the keyword arguments to call it with. *)
Record Descriptor : Type := mkDescriptor {
  func : Z -> list np.ndarray -> result (gmap string np.ndarray);
  kwargs : gmap string (list np.ndarray)
}.

(** ** The parser (lines 70-137) *)

(** The accumulators of the frame loop. *)
Record LoopState : Type := mkLoopState {
  st_image_filenames : list Path;
  st_poses : list np.matrix;
  st_depths : list np.ndarray;
  st_num_skipped : nat
}.

Definition loop_init : LoopState :=
  {| st_image_filenames := []; st_poses := []; st_depths := []; st_num_skipped := 0 |}.

(** The depth file of a frame (line 84), relative to the data directory. *)
Definition depth_file (file_path : string) : string :=
  Py.slice_to file_path (-4) +:+ "_disp.npy".

(** One iteration of the loop (lines 78-87). *)
Definition loop_body (config : InstantNGPWithDepthsDataParserConfig) (fs : FileSystem)
    (st : LoopState) (frame : Frame) : result LoopState :=
  let fname := data config // pathlib.of_string (file_path frame) in
  if negb (pathlib.truthy fname) then
    Ok {| st_image_filenames := st_image_filenames st;
          st_poses := st_poses st;
          st_depths := st_depths st;
          st_num_skipped := st_num_skipped st + 1 |}
  else
    pose ← np.array2 (transform_matrix frame);
    depth ← of_option OSError
      (np_load fs (data config // pathlib.of_string (depth_file (file_path frame))));
    depth_0 ← np.getitem depth 0;
    depth_0_0 ← np.getitem depth_0 0;
    img_0 ← of_option OSError (imageio_imread fs fname);
    '(image_height, image_width) ← Py.unpack2 (take 2 (img_shape img_0));
    Ok {| st_image_filenames := st_image_filenames st ++ [fname];
          st_poses := st_poses st ++ [pose];
          st_depths := st_depths st ++ [depth_0_0];
          st_num_skipped := st_num_skipped st |}.

(** [for frame in meta["frames"]] (line 77). *)
Fixpoint for_frames (config : InstantNGPWithDepthsDataParserConfig) (fs : FileSystem)
    (st : LoopState) (fr : list Frame) : result LoopState :=
  match fr with
  | [] => Ok st
  | frame :: rest =>
      st' ← loop_body config fs st frame;
      for_frames config fs st' rest
  end.

(** The line printed at line 89. *)
Definition skip_message (n : nat) (split : string) : string :=
  "Skipping " +:+ pretty n +:+ " files in dataset split " +:+ split +:+ ".".

Section Parser.

(** [camera_utils.get_distortion_params], defined outside this file. *)
Context {DistortionParams : Type}.
Variable get_distortion_params : R -> R -> R -> R -> DistortionParams.

Record Cameras : Type := mkCameras {
  fx : np.float64;
  fy : np.float64;
  cx : R;
  cy : R;
  distortion_params : DistortionParams;
  height : Z;
  width : Z;
  camera_to_worlds : list np.matrix;
  camera_type : CameraType
}.

Record DataparserOutputs : Type := mkOutputs {
  image_filenames : list Path;
  cameras : Cameras;
  scene_box : SceneBox;
  additional_inputs : gmap string Descriptor;
  depths : list np.ndarray
}.

(** Lines 90-137: what follows the loop and the log line. *)
Definition assemble (config : InstantNGPWithDepthsDataParserConfig) (meta : Meta)
    (st : LoopState) : result DataparserOutputs :=
  if length (st_image_filenames st) =? 0 then Raise AssertionError else
  poses ← np.array3 (st_poses st);
  poses ← np.imul_translation (scene_scale config) poses;
  let camera_to_world := np.top3 poses in
  k1 ← Py.dict_getitem (fields meta) "k1";
  k2 ← Py.dict_getitem (fields meta) "k2";
  p1 ← Py.dict_getitem (fields meta) "p1";
  p2 ← Py.dict_getitem (fields meta) "p2";
  let distortion_params := get_distortion_params k1 k2 p1 p2 in
  aabb_scale ← Py.dict_getitem (fields meta) "aabb_scale";
  let scene_box :=
    {| aabb := [[- aabb_scale; - aabb_scale; - aabb_scale];
                [aabb_scale; aabb_scale; aabb_scale]]%R |} in
  '(fl_x, fl_y) ← get_focal_lengths (fields meta);
  cx ← Py.dict_getitem (fields meta) "cx";
  cy ← Py.dict_getitem (fields meta) "cy";
  h ← Py.dict_getitem (fields meta) "h";
  w ← Py.dict_getitem (fields meta) "w";
  let cameras :=
    {| fx := fl_x; fy := fl_y; cx := cx; cy := cy;
       distortion_params := distortion_params;
       height := Py.int h; width := Py.int w;
       camera_to_worlds := camera_to_world;
       camera_type := PERSPECTIVE |} in
  Ok {| image_filenames := st_image_filenames st;
        cameras := cameras;
        scene_box := scene_box;
        additional_inputs :=
          {[ "semantics" :=
               {| func := get_depths; kwargs := {[ "depths" := st_depths st ]} |} ]};
        depths := st_depths st |}.

(** The method: what it prints, and what it returns or raises. *)
Definition _generate_dataparser_outputs
    (config : InstantNGPWithDepthsDataParserConfig) (fs : FileSystem)
    (meta : Meta) (split : string) : list string * result DataparserOutputs :=
  match for_frames config fs loop_init (frames meta) with
  | Raise e => ([], Raise e)
  | Ok st =>
      let console :=
        if 0 <=? st_num_skipped st
        then [skip_message (st_num_skipped st) split] else [] in
      (console, assemble config meta st)
  end.

End Parser.

(** ** Vocabulary of the statements *)

(** The image path of a frame (line 78). *)
Definition frame_fname (config : InstantNGPWithDepthsDataParserConfig) (f : Frame) : Path :=
  data config // pathlib.of_string (file_path f).

(** The frames that pass the test of line 79, in manifest order. *)
Definition retained (config : InstantNGPWithDepthsDataParserConfig) (fr : list Frame)
  : list Frame :=
  List.filter (fun f => pathlib.truthy (frame_fname config f)) fr.

(** [d] is what the loop keeps of the depth file of frame [f]. *)
Definition frame_depth (config : InstantNGPWithDepthsDataParserConfig) (fs : FileSystem)
    (f : Frame) (d : np.ndarray) : Prop :=
  exists arr arr_0,
    np_load fs (data config // pathlib.of_string (depth_file (file_path f))) = Some arr
    /\ np.getitem arr 0 = Ok arr_0
    /\ np.getitem arr_0 0 = Ok d.

(** Entry [(r, c)] of a matrix, if it exists. *)
Definition entry (m : np.matrix) (r c : nat) : option R :=
  m !! r ≫= fun row => row !! c.

(** Two decoding results that the loop cannot tell apart: both fail, or
    both give an array with at least two axes, or both give one with
    fewer. *)
Definition same_decode (o o' : option Image) : Prop :=
  match o, o' with
  | Some img, Some img' => 2 <= length (img_shape img) <-> 2 <= length (img_shape img')
  | None, None => True
  | _, _ => False
  end.

(** What one iteration of the loop needs of a frame to complete: a
    rectangular pose, a depth file that loads and can be indexed twice,
    and an image that decodes to an array with at least two axes. *)
Definition frame_ok (config : InstantNGPWithDepthsDataParserConfig) (fs : FileSystem)
    (f : Frame) : Prop :=
  np.regular (transform_matrix f) = true
  /\ (exists d, frame_depth config fs f d)
  /\ exists img,
       imageio_imread fs (frame_fname config f) = Some img
       /\ 2 <= length (img_shape img).

(** A matrix with [r] rows, each of [c] entries. *)
Definition has_shape (r c : nat) (m : np.matrix) : Prop :=
  length m = r /\ Forall (fun row => length row = c) m.

(** ** A sample dataset *)

Module Example.

Definition root : Path := pathlib.of_string "data/ours/posterv2".

Definition config : InstantNGPWithDepthsDataParserConfig :=
  {| data := root; scale_factor := 1; scene_scale := 0.33 |}.

Definition pose0 : list (list R) :=
  [[1; 0; 0; 2]; [0; 1; 0; 4]; [0; 0; 1; 6]; [0; 0; 0; 1]]%R.

Definition frame0 : Frame :=
  {| file_path := "images/0001.png"; transform_matrix := pose0 |}.

Definition intrinsics : gmap string R :=
  list_to_map
    [("k1", 0); ("k2", 0); ("p1", 0); ("p2", 0); ("aabb_scale", 4);
     ("fl_x", 50); ("fl_y", 60); ("cx", 400); ("cy", 300); ("h", 600); ("w", 800)]%R.

Definition meta : Meta := {| frames := [frame0]; fields := intrinsics |}.

(** A disparity file of shape (1, 1, 1, 2) and the map kept from it. *)
Definition depth_map : np.ndarray :=
  np.Array [np.Array [np.Scalar 0.5; np.Scalar 0.25]].

Definition disp : np.ndarray := np.Array [np.Array [depth_map]].

Definition picture : Image := {| img_shape := [600; 800; 3]; img_data := np.Scalar 0 |}.

(** A smaller picture, for the same file. *)
Definition thumbnail : Image := {| img_shape := [6; 8]; img_data := np.Scalar 1 |}.

Definition fs : FileSystem :=
  {| np_load := fun p =>
       if decide (p = pathlib.of_string "data/ours/posterv2/images/0001_disp.npy")
       then Some disp else None;
     imageio_imread := fun p =>
       if decide (p = pathlib.of_string "data/ours/posterv2/images/0001.png")
       then Some picture else None |}.

Definition fs_thumbnail : FileSystem :=
  {| np_load := np_load fs;
     imageio_imread := fun p =>
       if decide (p = pathlib.of_string "data/ours/posterv2/images/0001.png")
       then Some thumbnail else None |}.

(** The distortion vector [k1, k2, k3, k4, p1, p2] with [k3 = k4 = 0]. *)
Definition get_distortion_params (k1 k2 p1 p2 : R) : list R := [k1; k2; 0; 0; p1; p2]%R.

(** What the parser returns on the sample. *)
Definition out : DataparserOutputs :=
  {| image_filenames := [pathlib.of_string "data/ours/posterv2/images/0001.png"];
     cameras :=
       {| fx := np.Fin 50; fy := np.Fin 60; cx := 400; cy := 300;
          distortion_params := [0; 0; 0; 0; 0; 0]%R;
          height := 600; width := 800;
          camera_to_worlds :=
            [[[1; 0; 0; 2 * 0.33]; [0; 1; 0; 4 * 0.33]; [0; 0; 1; 6 * 0.33]]]%R;
          camera_type := PERSPECTIVE |};
     scene_box := {| aabb := [[- (4); - (4); - (4)]; [4; 4; 4]]%R |};
     additional_inputs :=
       {[ "semantics" :=
            {| func := get_depths; kwargs := {[ "depths" := [depth_map] ]} |} ]};
     depths := [depth_map] |}.

(** A manifest whose only frame has an empty [file_path], and a
    filesystem on which the paths derived from it can be read. *)
Definition frame_blank : Frame := {| file_path := ""; transform_matrix := pose0 |}.

Definition meta_blank : Meta := {| frames := [frame_blank]; fields := intrinsics |}.

Definition fs_blank : FileSystem :=
  {| np_load := fun p =>
       if decide (p = pathlib.of_string "data/ours/posterv2/_disp.npy")
       then Some disp else None;
     imageio_imread := fun p =>
       if decide (p = root) then Some picture else None |}.

End Example.

(** * Part II: properties *)

(** ** Reasoning about [result] *)

Lemma bind_Ok_inv {A B : Type} (m : result A) (k : A -> result B) (b : B) :
  m ≫= k = Ok b -> exists a, m = Ok a /\ k a = Ok b.
Proof. destruct m as [a|e]; simpl; [eauto | discriminate]. Qed.

Lemma of_option_Ok_inv {A : Type} (e : exn) (o : option A) (a : A) :
  of_option e o = Ok a -> o = Some a.
Proof. destruct o; simpl; congruence. Qed.

(** Split a successful sequence of binds into its successful steps. *)
Ltac ok_inv H :=
  repeat match type of H with
  | _ ≫= _ = Ok _ =>
      let a := fresh "v" in
      let Ha := fresh "Hv" in
      apply bind_Ok_inv in H as (a & Ha & H)
  | (if ?c then _ else _) = Ok _ => destruct c eqn:?; [try discriminate H | try discriminate H]
  | (match ?x with (_, _) => _ end) = Ok _ => destruct x
  | Raise _ = Ok _ => discriminate H
  end.

Lemma contains_Some {V : Type} (m : gmap string V) k v :
  m !! k = Some v -> Py.contains m k = true.
Proof. intros H. unfold Py.contains. apply bool_decide_eq_true_2. by rewrite H. Qed.

Lemma contains_None {V : Type} (m : gmap string V) k :
  m !! k = None -> Py.contains m k = false.
Proof.
  intros H. unfold Py.contains. apply bool_decide_eq_false_2.
  rewrite H. by intros [? ?].
Qed.

Lemma dict_getitem_Some {V : Type} (m : gmap string V) k v :
  m !! k = Some v -> Py.dict_getitem m k = Ok v.
Proof. intros H. unfold Py.dict_getitem. by rewrite H. Qed.

Lemma dict_getitem_Raise {V : Type} (m : gmap string V) k e :
  Py.dict_getitem m k = Raise e -> e = KeyError k.
Proof. unfold Py.dict_getitem. destruct (m !! k); simpl; congruence. Qed.

Lemma getitem_of_nat {A : Type} (l : list A) (i : nat) (x : A) :
  l !! i = Some x -> Py.getitem l (Z.of_nat i) = Ok x.
Proof.
  intros H. pose proof (lookup_lt_Some _ _ _ H) as Hlt.
  unfold Py.getitem.
  destruct (Z.leb_spec 0 (Z.of_nat i)); [|lia].
  destruct (Z.ltb_spec (Z.of_nat i) (Z.of_nat (length l))); [|lia].
  simpl. by rewrite Nat2Z.id, H.
Qed.

Lemma unpack2_take2 (shape : list nat) :
  Py.unpack2 (take 2 shape) =
  if decide (2 <= length shape)
  then Ok (default 0 (shape !! 0), default 0 (shape !! 1))
  else Raise ValueError.
Proof. by destruct shape as [|a [|b shape]]. Qed.

(** [int] of a float that holds an integer is that integer. *)
Lemma int_IZR (z : Z) : Py.int (IZR z) = z.
Proof.
  unfold Py.int. destruct (Rle_dec 0 (IZR z)) as [H|H].
  - symmetry. apply Int_part_spec. lra.
  - rewrite <- opp_IZR. rewrite <- (Int_part_spec (IZR (- z)) (- z)); [lia|lra].
Qed.

(** ** The frame loop *)

Lemma array2_Ok_inv (m : list (list R)) (a : np.matrix) :
  np.array2 m = Ok a -> a = m.
Proof. unfold np.array2. destruct (np.regular m); congruence. Qed.

Lemma loop_body_spec config fs st f st' :
  loop_body config fs st f = Ok st' ->
  if pathlib.truthy (frame_fname config f) then
    st_image_filenames st' = st_image_filenames st ++ [frame_fname config f]
    /\ st_poses st' = st_poses st ++ [transform_matrix f]
    /\ (exists d, st_depths st' = st_depths st ++ [d] /\ frame_depth config fs f d)
    /\ st_num_skipped st' = st_num_skipped st
  else
    st_image_filenames st' = st_image_filenames st
    /\ st_poses st' = st_poses st
    /\ st_depths st' = st_depths st
    /\ st_num_skipped st' = S (st_num_skipped st).
Proof.
  unfold loop_body. fold (frame_fname config f).
  destruct (pathlib.truthy (frame_fname config f)); intros H; simpl in H.
  - ok_inv H. injection H as <-. simpl.
    apply array2_Ok_inv in Hv as ->.
    apply of_option_Ok_inv in Hv0.
    split; [reflexivity|]. split; [reflexivity|]. split; [|reflexivity].
    eexists; split; [reflexivity|]. red; eauto.
  - injection H as <-. simpl. repeat split; lia.
Qed.

Lemma retained_cons config f fr :
  retained config (f :: fr) =
  if pathlib.truthy (frame_fname config f) then f :: retained config fr
  else retained config fr.
Proof. reflexivity. Qed.

Lemma for_frames_spec config fs fr : forall st st',
  for_frames config fs st fr = Ok st' ->
  st_image_filenames st' = st_image_filenames st ++ (frame_fname config <$> retained config fr)
  /\ st_poses st' = st_poses st ++ (transform_matrix <$> retained config fr)
  /\ (exists ds, st_depths st' = st_depths st ++ ds
                 /\ Forall2 (frame_depth config fs) (retained config fr) ds)
  /\ st_num_skipped st' + length (retained config fr) = st_num_skipped st + length fr.
Proof.
  induction fr as [|f fr IH]; intros st st' H; simpl in H.
  - injection H as <-. change (retained config []) with (@nil Frame). simpl.
    rewrite !app_nil_r. repeat split; try lia.
    exists []. rewrite app_nil_r. split; [reflexivity | constructor].
  - apply bind_Ok_inv in H as (st1 & H1 & H).
    apply loop_body_spec in H1. apply IH in H as (Hf & Hp & (ds & Hd & Hds) & Hn).
    rewrite retained_cons.
    destruct (pathlib.truthy (frame_fname config f)).
    + destruct H1 as (Hf1 & Hp1 & (d & Hd1 & Hfd) & Hn1).
      rewrite Hf, Hp, Hd, Hf1, Hp1, Hd1, <- !app_assoc.
      split; [reflexivity|]. split; [reflexivity|]. split.
      * exists (d :: ds). split; [reflexivity | by constructor].
      * rewrite !length_cons. lia.
    + destruct H1 as (Hf1 & Hp1 & Hd1 & Hn1).
      rewrite Hf, Hp, Hd, Hf1, Hp1, Hd1.
      split; [reflexivity|]. split; [reflexivity|]. split.
      * exists ds. split; [reflexivity | assumption].
      * rewrite length_cons. lia.
Qed.

(** The test of line 79 never fails, so the loop keeps every frame. *)
Lemma retained_all config fr : retained config fr = fr.
Proof.
  induction fr as [|f fr IH]; [reflexivity|].
  rewrite retained_cons, IH. reflexivity.
Qed.

Lemma for_frames_never_skips config fs fr st :
  for_frames config fs loop_init fr = Ok st ->
  st_num_skipped st = 0 /\ length (st_image_filenames st) = length fr.
Proof.
  intros (Hf & _ & _ & Hn)%for_frames_spec.
  rewrite retained_all in *. simpl in *.
  rewrite Hf, length_fmap. lia.
Qed.

Lemma loop_body_imread config fs fs' st f :
  (forall p, np_load fs' p = np_load fs p) ->
  (forall p, same_decode (imageio_imread fs p) (imageio_imread fs' p)) ->
  loop_body config fs' st f = loop_body config fs st f.
Proof.
  intros Hload Himg. unfold loop_body.
  destruct (negb _); [reflexivity|].
  destruct (np.array2 _) as [pose|]; simpl; [|reflexivity].
  rewrite Hload.
  destruct (of_option OSError (np_load fs _)) as [arr|]; simpl; [|reflexivity].
  destruct (np.getitem arr 0) as [arr_0|]; simpl; [|reflexivity].
  destruct (np.getitem arr_0 0) as [d|]; simpl; [|reflexivity].
  specialize (Himg (data config // pathlib.of_string (file_path f))).
  unfold same_decode in Himg.
  destruct (imageio_imread fs _) as [img|], (imageio_imread fs' _) as [img'|];
    simpl; try reflexivity; try contradiction.
  rewrite !unpack2_take2.
  destruct (decide (2 <= length (img_shape img))), (decide (2 <= length (img_shape img')));
    simpl; try reflexivity; tauto.
Qed.

Lemma for_frames_imread config fs fs' fr :
  (forall p, np_load fs' p = np_load fs p) ->
  (forall p, same_decode (imageio_imread fs p) (imageio_imread fs' p)) ->
  forall st, for_frames config fs' st fr = for_frames config fs st fr.
Proof.
  intros Hload Himg. induction fr as [|f fr IH]; intros st; simpl; [reflexivity|].
  rewrite (loop_body_imread _ _ _ _ _ Hload Himg).
  destruct (loop_body config fs st f); simpl; [apply IH | reflexivity].
Qed.

(** ** Pose post-processing *)

Lemma imul_translation_Ok_inv s a a' :
  np.imul_translation s a = Ok a' ->
  a' = imap (fun i row => if i <? 3 then alter (fun x => (x * s)%R) 3 row else row) <$> a.
Proof.
  unfold np.imul_translation.
  destruct a as [|[|r m] a]; try discriminate.
  destruct (3 <? length r); congruence.
Qed.

Lemma c2w_lookup s a a' i :
  np.imul_translation s a = Ok a' ->
  np.top3 a' !! i =
  (fun m => take 3 (imap (fun i row =>
                            if i <? 3 then alter (fun x => (x * s)%R) 3 row else row) m))
    <$> a !! i.
Proof.
  intros ->%imul_translation_Ok_inv. unfold np.top3.
  rewrite !list_lookup_fmap. by destruct (a !! i).
Qed.

Lemma c2w_entry s (m : np.matrix) r c :
  r < 3 ->
  entry (take 3 (imap (fun i row =>
                         if i <? 3 then alter (fun x => (x * s)%R) 3 row else row) m)) r c
  = (fun x => if decide (c = 3) then (x * s)%R else x) <$> entry m r c.
Proof.
  intros Hr. unfold entry.
  rewrite lookup_take_lt by assumption. rewrite list_lookup_imap.
  destruct (m !! r) as [row|]; simpl; [|reflexivity].
  destruct (Nat.ltb_spec r 3); [|lia].
  destruct (decide (c = 3)) as [->|Hc].
  - rewrite list_lookup_alter_eq. reflexivity.
  - rewrite list_lookup_alter_ne by congruence. by destruct (row !! c).
Qed.

Lemma c2w_rows s (m : np.matrix) :
  length (take 3 (imap (fun i row =>
                          if i <? 3 then alter (fun x => (x * s)%R) 3 row else row) m))
  = min 3 (length m).
Proof. by rewrite length_take, length_imap. Qed.

(** ** The parser *)

Section Properties.

Context {DistortionParams : Type}.
Variable get_distortion_params : R -> R -> R -> R -> DistortionParams.

Abbreviation parse := (_generate_dataparser_outputs get_distortion_params).

Lemma parse_Ok_inv config fs meta split out :
  snd (parse config fs meta split) = Ok out ->
  exists st,
    for_frames config fs loop_init (frames meta) = Ok st
    /\ fst (parse config fs meta split) = [skip_message (st_num_skipped st) split]
    /\ assemble get_distortion_params config meta st = Ok out.
Proof.
  unfold _generate_dataparser_outputs.
  destruct (for_frames config fs loop_init (frames meta)) as [st|e]; simpl;
    [|discriminate].
  intros H. exists st. repeat split; assumption.
Qed.

Lemma assemble_Ok_inv config meta st out :
  assemble get_distortion_params config meta st = Ok out ->
  st_image_filenames st <> []
  /\ image_filenames out = st_image_filenames st
  /\ depths out = st_depths st
  /\ additional_inputs out =
       {[ "semantics" := {| func := get_depths; kwargs := {[ "depths" := st_depths st ]} |} ]}
  /\ (exists a, np.imul_translation (scene_scale config) (st_poses st) = Ok a
                /\ camera_to_worlds (cameras out) = np.top3 a)
  /\ (exists h w, fields meta !! "h" = Some h /\ fields meta !! "w" = Some w
                  /\ height (cameras out) = Py.int h /\ width (cameras out) = Py.int w).
Proof.
  unfold assemble. intros H.
  destruct (length (st_image_filenames st) =? 0) eqn:Hlen; [discriminate|].
  apply Nat.eqb_neq in Hlen.
  ok_inv H. injection H as <-. simpl.
  assert (v = st_poses st) as ->.
  { unfold np.array3 in Hv. destruct (st_poses st); [congruence|].
    destruct (forallb _ _); congruence. }
  apply of_option_Ok_inv in Hv9, Hv10.
  split; [by destruct (st_image_filenames st)|].
  repeat split; eauto 10.
Qed.

(** Conversely, the tail of the method succeeds as soon as each of its
    steps does. *)
Lemma assemble_Ok config meta st a k1 k2 p1 p2 s fl_x fl_y cx cy h w :
  st_image_filenames st <> [] ->
  np.array3 (st_poses st) = Ok (st_poses st) ->
  np.imul_translation (scene_scale config) (st_poses st) = Ok a ->
  fields meta !! "k1" = Some k1 -> fields meta !! "k2" = Some k2 ->
  fields meta !! "p1" = Some p1 -> fields meta !! "p2" = Some p2 ->
  fields meta !! "aabb_scale" = Some s ->
  get_focal_lengths (fields meta) = Ok (fl_x, fl_y) ->
  fields meta !! "cx" = Some cx -> fields meta !! "cy" = Some cy ->
  fields meta !! "h" = Some h -> fields meta !! "w" = Some w ->
  assemble get_distortion_params config meta st =
  Ok {| image_filenames := st_image_filenames st;
        cameras :=
          {| fx := fl_x; fy := fl_y; cx := cx; cy := cy;
             distortion_params := get_distortion_params k1 k2 p1 p2;
             height := Py.int h; width := Py.int w;
             camera_to_worlds := np.top3 a;
             camera_type := PERSPECTIVE |};
        scene_box := {| aabb := [[- s; - s; - s]; [s; s; s]]%R |};
        additional_inputs :=
          {[ "semantics" :=
               {| func := get_depths; kwargs := {[ "depths" := st_depths st ]} |} ]};
        depths := st_depths st |}.
Proof.
  intros Hne Harr Hmul Hk1 Hk2 Hp1 Hp2 Hs Hfl Hcx Hcy Hh Hw.
  unfold assemble.
  destruct (st_image_filenames st) as [|p ps] eqn:E; [done|]. simpl length. simpl Nat.eqb.
  cbv iota. rewrite Harr. simpl. rewrite Hmul. simpl.
  rewrite (dict_getitem_Some _ _ _ Hk1), (dict_getitem_Some _ _ _ Hk2),
    (dict_getitem_Some _ _ _ Hp1), (dict_getitem_Some _ _ _ Hp2),
    (dict_getitem_Some _ _ _ Hs). simpl.
  rewrite Hfl. simpl.
  rewrite (dict_getitem_Some _ _ _ Hcx), (dict_getitem_Some _ _ _ Hcy),
    (dict_getitem_Some _ _ _ Hh), (dict_getitem_Some _ _ _ Hw). simpl.
  reflexivity.
Qed.

Lemma parse_Ok_frames config fs meta split out :
  snd (parse config fs meta split) = Ok out ->
  exists skipped a,
    fst (parse config fs meta split) = [skip_message skipped split]
    /\ skipped + length (retained config (frames meta)) = length (frames meta)
    /\ image_filenames out = frame_fname config <$> retained config (frames meta)
    /\ Forall2 (frame_depth config fs) (retained config (frames meta)) (depths out)
    /\ np.imul_translation (scene_scale config)
         (transform_matrix <$> retained config (frames meta)) = Ok a
    /\ camera_to_worlds (cameras out) = np.top3 a.
Proof.
  intros (st & Hloop & Hlog & Hasm)%parse_Ok_inv.
  apply for_frames_spec in Hloop as (Hf & Hp & (ds & Hd & Hds) & Hn).
  apply assemble_Ok_inv in Hasm as (_ & Hi & Hdep & _ & (a & Ha & Hc) & _).
  simpl in *. subst ds.
  exists (st_num_skipped st), a.
  rewrite Hi, Hdep, Hf, <- Hp. repeat split; first [assumption | lia].
Qed.

(** C4. On a successful parse the camera-to-world transforms are, in
    order, the poses of the retained frames cut to their top three rows
    (a 4x4 pose gives three rows); inside those rows every entry outside
    column 3 is the input entry, and the entry in column 3 (the
    translation) is the input entry times [scene_scale]. *)
Theorem C4_translation_scaled_rotation_kept config fs meta split out :
  snd (parse config fs meta split) = Ok out ->
  length (camera_to_worlds (cameras out)) = length (retained config (frames meta))
  /\ forall i f,
       retained config (frames meta) !! i = Some f ->
       exists p,
         camera_to_worlds (cameras out) !! i = Some p
         /\ length p = min 3 (length (transform_matrix f))
         /\ forall r c,
              r < 3 ->
              entry p r c =
              (fun x => if decide (c = 3) then (x * scene_scale config)%R else x)
                <$> entry (transform_matrix f) r c.
Proof.
  intros (skipped & a & _ & _ & _ & _ & Ha & Hc)%parse_Ok_frames.
  rewrite Hc. split.
  - apply imul_translation_Ok_inv in Ha as ->.
    unfold np.top3. by rewrite !length_fmap.
  - intros i f Hf. eexists. split; [|split].
    + rewrite (c2w_lookup _ _ _ _ Ha), list_lookup_fmap, Hf. reflexivity.
    + apply c2w_rows.
    + intros r c Hr. by apply c2w_entry.
Qed.

(** C5. Whenever the frame loop completes, the image paths, poses and
    depth arrays it has collected have one length, the number of frames
    minus the skip counter, and the i-th entry of each comes from the
    i-th retained frame of the manifest. On a successful parse the image
    paths, the camera-to-world transforms and the depth arrays returned
    have that length, which is at least 1 and uses the skip count that
    the log line reports, and keep that order. *)
Theorem C5_retained_sequences_aligned config fs meta :
  (forall st,
      for_frames config fs loop_init (frames meta) = Ok st ->
      length (st_image_filenames st) = length (frames meta) - st_num_skipped st
      /\ length (st_poses st) = length (frames meta) - st_num_skipped st
      /\ length (st_depths st) = length (frames meta) - st_num_skipped st
      /\ st_image_filenames st = frame_fname config <$> retained config (frames meta)
      /\ st_poses st = transform_matrix <$> retained config (frames meta)
      /\ Forall2 (frame_depth config fs) (retained config (frames meta)) (st_depths st))
  /\ (forall split out,
        snd (parse config fs meta split) = Ok out ->
        exists skipped,
          fst (parse config fs meta split) = [skip_message skipped split]
          /\ length (image_filenames out) = length (frames meta) - skipped
          /\ length (camera_to_worlds (cameras out)) = length (frames meta) - skipped
          /\ length (depths out) = length (frames meta) - skipped
          /\ 1 <= length (frames meta) - skipped
          /\ image_filenames out = frame_fname config <$> retained config (frames meta)
          /\ Forall2 (frame_depth config fs) (retained config (frames meta)) (depths out)
          /\ Forall2 (fun f p => forall r c, r < 3 -> c < 3 ->
                                   entry p r c = entry (transform_matrix f) r c)
               (retained config (frames meta)) (camera_to_worlds (cameras out))).
Proof.
  split.
  - intros st (Hf & Hp & (ds & Hd & Hds) & Hn)%for_frames_spec.
    simpl in *. subst ds. apply Forall2_length in Hds as Hld.
    rewrite Hf, Hp, !length_fmap.
    repeat split; first [assumption | lia].
  - intros split out Hok.
    pose proof (parse_Ok_inv _ _ _ _ _ Hok) as (st & _ & _ & Hasm).
    apply assemble_Ok_inv in Hasm as (Hne & Hi' & _).
    pose proof (parse_Ok_frames _ _ _ _ _ Hok)
      as (skipped & a & Hlog & Hn & Hi & Hd & Ha & Hc).
    exists skipped.
    assert (length (camera_to_worlds (cameras out))
            = length (retained config (frames meta))) as Hlc.
    { rewrite Hc. apply imul_translation_Ok_inv in Ha as ->.
      unfold np.top3. by rewrite !length_fmap. }
    assert (length (image_filenames out) = length (retained config (frames meta))) as Hli.
    { by rewrite Hi, length_fmap. }
    assert (length (image_filenames out) <> 0) as Hpos.
    { rewrite Hi'. by destruct (st_image_filenames st). }
    apply Forall2_length in Hd as Hld.
    repeat split; try assumption; try lia.
    apply Forall2_same_length_lookup. split; [by rewrite Hlc|].
    intros i f p Hf Hp r c Hr Hcol.
    rewrite Hc, (c2w_lookup _ _ _ _ Ha), list_lookup_fmap, Hf in Hp.
    injection Hp as <-. rewrite c2w_entry by assumption.
    destruct (decide (c = 3)); [lia|]. by destruct (entry _ _ _).
Qed.

(** C6. On a successful parse, for the i-th retained frame with file
    path P: the i-th image path is the data directory joined with P;
    the depth array at index i is [arr[0][0]] for the array [arr]
    loaded from the data directory joined with [P[:-4] + "_disp.npy"];
    and the stored lookup, called on i with its stored keyword
    arguments, returns the dict with the single entry "depth" bound to
    that array. *)
Theorem C6_depth_loaded_from_disp_file config fs meta split out :
  snd (parse config fs meta split) = Ok out ->
  forall i f,
    retained config (frames meta) !! i = Some f ->
    image_filenames out !! i = Some (data config // pathlib.of_string (file_path f))
    /\ exists arr arr_0 d,
         np_load fs (data config //
                     pathlib.of_string (Py.slice_to (file_path f) (-4) +:+ "_disp.npy"))
           = Some arr
         /\ np.getitem arr 0 = Ok arr_0
         /\ np.getitem arr_0 0 = Ok d
         /\ depths out !! i = Some d
         /\ exists desc ds,
              additional_inputs out !! "semantics" = Some desc
              /\ kwargs desc !! "depths" = Some ds
              /\ func desc (Z.of_nat i) ds = Ok {[ "depth" := d ]}.
Proof.
  intros Hok i f Hf.
  pose proof (parse_Ok_inv _ _ _ _ _ Hok) as (st & _ & _ & Hasm).
  apply assemble_Ok_inv in Hasm as (_ & _ & Hdep & Hadd & _).
  pose proof (parse_Ok_frames _ _ _ _ _ Hok) as (skipped & a & _ & _ & Hi & Hd & _).
  split.
  - rewrite Hi, list_lookup_fmap, Hf. reflexivity.
  - destruct (Forall2_lookup_l _ _ _ _ _ Hd Hf) as (d & Hdi & arr & arr_0 & Hl & H0 & H00).
    exists arr, arr_0, d. repeat split; try assumption.
    eexists _, _. rewrite Hadd, lookup_singleton_eq. split; [reflexivity|].
    simpl. rewrite lookup_singleton_eq. split; [reflexivity|].
    unfold get_depths. rewrite <- Hdep.
    by rewrite (getitem_of_nat _ _ _ Hdi).
Qed.

(** C7. On a successful parse the camera height and width are the
    manifest entries "h" and "w" converted with [int]; and replacing
    what the image decoder returns (anything but whether it fails or
    gives fewer than two axes) changes neither the printed line nor the
    result of the parse. *)
Theorem C7_height_width_from_manifest config fs meta split :
  (forall out,
      snd (parse config fs meta split) = Ok out ->
      exists h w,
        fields meta !! "h" = Some h /\ fields meta !! "w" = Some w
        /\ height (cameras out) = Py.int h /\ width (cameras out) = Py.int w)
  /\ (forall fs',
        (forall p, np_load fs' p = np_load fs p) ->
        (forall p, same_decode (imageio_imread fs p) (imageio_imread fs' p)) ->
        parse config fs' meta split = parse config fs meta split).
Proof.
  split.
  - intros out (st & _ & _ & Hasm)%parse_Ok_inv.
    by apply assemble_Ok_inv in Hasm as (_ & _ & _ & _ & _ & Hhw).
  - intros fs' Hload Himg. unfold _generate_dataparser_outputs.
    by rewrite (for_frames_imread _ _ _ _ Hload Himg).
Qed.

(** C8. Two parses that differ only in [split] return or raise the
    same thing; they print nothing both, or the same line up to the
    split name. *)
Theorem C8_split_only_in_log config fs meta split1 split2 :
  snd (parse config fs meta split1) = snd (parse config fs meta split2)
  /\ ((fst (parse config fs meta split1) = []
       /\ fst (parse config fs meta split2) = [])
      \/ exists n,
           fst (parse config fs meta split1) = [skip_message n split1]
           /\ fst (parse config fs meta split2) = [skip_message n split2]).
Proof.
  unfold _generate_dataparser_outputs.
  destruct (for_frames config fs loop_init (frames meta)) as [st|e]; simpl.
  - split; [reflexivity|]. right. by exists (st_num_skipped st).
  - split; [reflexivity|]. by left.
Qed.

(** C9. On a successful parse [additional_inputs] has exactly one key,
    "semantics", bound to [get_depths] with the depth arrays as keyword
    argument "depths"; it has no key "depth". The key "depth" is the
    single key of every dict that [get_depths] returns. *)
Theorem C9_descriptor_stored_under_semantics config fs meta split out :
  snd (parse config fs meta split) = Ok out ->
  additional_inputs out !! "semantics"
    = Some {| func := get_depths; kwargs := {[ "depths" := depths out ]} |}
  /\ additional_inputs out !! "depth" = None
  /\ dom (additional_inputs out) = {[ "semantics" ]}
  /\ forall i m, get_depths i (depths out) = Ok m ->
                 dom m = {[ "depth" ]} /\ m !! "semantics" = None.
Proof.
  intros (st & _ & _ & Hasm)%parse_Ok_inv.
  apply assemble_Ok_inv in Hasm as (_ & _ & Hdep & Hadd & _).
  rewrite Hadd, Hdep. split; [|split; [|split]].
  - apply lookup_singleton_eq.
  - by apply lookup_singleton_ne.
  - apply dom_singleton_L.
  - intros i m H. unfold get_depths in H. ok_inv H. injection H as <-.
    split; [apply dom_singleton_L | by apply lookup_singleton_ne].
Qed.

End Properties.

(** ** Focal lengths *)

Lemma eq_zero_true x : np.eq_zero x = true <-> x = np.Fin 0.
Proof.
  destruct x as [r|]; simpl; [|split; discriminate].
  rewrite bool_decide_eq_true. split; congruence.
Qed.

Ltac fl_lookup :=
  repeat first
    [ erewrite contains_Some by eassumption
    | erewrite contains_None by eassumption
    | erewrite dict_getitem_Some by eassumption ];
  simpl; try reflexivity.

Ltac fl_raise H :=
  repeat match type of H with
  | context [if ?c then _ else _] => destruct c
  | context [Py.dict_getitem ?m ?k] =>
      let E := fresh "E" in
      destruct (Py.dict_getitem m k) eqn:E; simpl in H;
      [| apply dict_getitem_Raise in E ]
  end; try discriminate H; try (injection H as <-; eauto).

Lemma resolve_fl_x_Raise meta e :
  resolve_fl_x meta = Raise e -> exists k, e = KeyError k.
Proof. unfold resolve_fl_x. intros H. fl_raise H. Qed.

Lemma resolve_fl_y_Raise meta e :
  resolve_fl_y meta = Raise e -> exists k, e = KeyError k.
Proof. unfold resolve_fl_y. intros H. fl_raise H. Qed.

Lemma get_focal_lengths_resolved meta x y :
  resolve_fl_x meta = Ok x -> resolve_fl_y meta = Ok y ->
  get_focal_lengths meta =
  if np.eq_zero x || np.eq_zero y then Raise (AttributeError focal_msg) else Ok (x, y).
Proof. unfold get_focal_lengths. by intros -> ->. Qed.

Lemma get_focal_lengths_direct (meta : gmap string R) (vx vy : R) :
  meta !! "fl_x" = Some vx -> meta !! "fl_y" = Some vy ->
  vx <> 0%R -> vy <> 0%R ->
  get_focal_lengths meta = Ok (np.Fin vx, np.Fin vy).
Proof.
  intros Hx Hy Hvx Hvy.
  rewrite (get_focal_lengths_resolved meta (np.Fin vx) (np.Fin vy)).
  - simpl. by rewrite !bool_decide_eq_false_2.
  - unfold resolve_fl_x. fl_lookup.
  - unfold resolve_fl_y. fl_lookup.
Qed.

(** C3. Each axis is resolved on its own, first match winning: the
    direct field, then the field of view in degrees (converted to
    radians), then the field of view in radians, else the sentinel 0.
    [get_focal_lengths] raises the focal-length error exactly when both
    axes resolve and one of them is 0, and otherwise returns the resolved
    pair; direct nonzero [fl_x] and [fl_y] come back unchanged, so
    {fl_x: 50, fl_y: 60} gives (50, 60). *)
Theorem C3_focal_length_priority (meta : gmap string R) :
  ((forall v, meta !! "fl_x" = Some v -> resolve_fl_x meta = Ok (np.Fin v))
   /\ (forall d w, meta !! "fl_x" = None -> meta !! "x_fov" = Some d ->
                   meta !! "w" = Some w ->
                   resolve_fl_x meta = Ok (fov_to_focal_length (np.deg2rad d) w))
   /\ (forall a w, meta !! "fl_x" = None -> meta !! "x_fov" = None ->
                   meta !! "camera_angle_x" = Some a -> meta !! "w" = Some w ->
                   resolve_fl_x meta = Ok (fov_to_focal_length a w))
   /\ (meta !! "fl_x" = None -> meta !! "x_fov" = None ->
       meta !! "camera_angle_x" = None -> resolve_fl_x meta = Ok (np.Fin 0)))
  /\ ((forall v, meta !! "fl_y" = Some v -> resolve_fl_y meta = Ok (np.Fin v))
      /\ (forall d h, meta !! "fl_y" = None -> meta !! "y_fov" = Some d ->
                      meta !! "h" = Some h ->
                      resolve_fl_y meta = Ok (fov_to_focal_length (np.deg2rad d) h))
      /\ (forall a h, meta !! "fl_y" = None -> meta !! "y_fov" = None ->
                      meta !! "camera_angle_y" = Some a -> meta !! "h" = Some h ->
                      resolve_fl_y meta = Ok (fov_to_focal_length a h))
      /\ (meta !! "fl_y" = None -> meta !! "y_fov" = None ->
          meta !! "camera_angle_y" = None -> resolve_fl_y meta = Ok (np.Fin 0)))
  /\ (get_focal_lengths meta = Raise (AttributeError focal_msg) <->
      exists x y, resolve_fl_x meta = Ok x /\ resolve_fl_y meta = Ok y
                  /\ (x = np.Fin 0 \/ y = np.Fin 0))
  /\ (forall x y, resolve_fl_x meta = Ok x -> resolve_fl_y meta = Ok y ->
                  x <> np.Fin 0 -> y <> np.Fin 0 ->
                  get_focal_lengths meta = Ok (x, y))
  /\ (forall vx vy, meta !! "fl_x" = Some vx -> meta !! "fl_y" = Some vy ->
                    vx <> 0%R -> vy <> 0%R ->
                    get_focal_lengths meta = Ok (np.Fin vx, np.Fin vy))
  /\ get_focal_lengths {[ "fl_x" := 50%R; "fl_y" := 60%R ]} = Ok (np.Fin 50, np.Fin 60).
Proof.
  split; [|split; [|split; [|split; [|split]]]].
  - unfold resolve_fl_x. repeat split; intros; fl_lookup.
  - unfold resolve_fl_y. repeat split; intros; fl_lookup.
  - split.
    + intros H. unfold get_focal_lengths in H.
      destruct (resolve_fl_x meta) as [x|e] eqn:Ex; simpl in H;
        [|apply resolve_fl_x_Raise in Ex as [k ->]; discriminate].
      destruct (resolve_fl_y meta) as [y|e] eqn:Ey; simpl in H;
        [|apply resolve_fl_y_Raise in Ey as [k ->]; discriminate].
      exists x, y. split; [reflexivity|]. split; [reflexivity|].
      destruct (np.eq_zero x) eqn:Zx; [left; by apply eq_zero_true|].
      destruct (np.eq_zero y) eqn:Zy; [right; by apply eq_zero_true|].
      discriminate.
    + intros (x & y & Hx & Hy & Hz).
      rewrite (get_focal_lengths_resolved _ _ _ Hx Hy).
      destruct Hz as [->| ->]; simpl; rewrite bool_decide_eq_true_2 by reflexivity;
        [reflexivity | by rewrite orb_true_r].
  - intros x y Hx Hy Hnx Hny.
    rewrite (get_focal_lengths_resolved _ _ _ Hx Hy).
    destruct (np.eq_zero x) eqn:Zx; [by apply eq_zero_true in Zx|].
    destruct (np.eq_zero y) eqn:Zy; [by apply eq_zero_true in Zy|].
    reflexivity.
  - apply get_focal_lengths_direct.
  - apply get_focal_lengths_direct; [reflexivity | reflexivity | lra | lra].
Qed.

(** ** The field-of-view formula on real numbers *)

Section FovFormula.

Local Open Scope R_scope.

Lemma lt_div_r (a b c : R) : 0 < c -> a * c < b -> a < b / c.
Proof.
  intros Hc H. apply (Rmult_lt_reg_r c); [assumption|].
  replace (b / c * c) with b by (field; lra). assumption.
Qed.

Lemma div_lt_l (a b c : R) : 0 < c -> a < b * c -> a / c < b.
Proof.
  intros Hc H. apply (Rmult_lt_reg_r c); [assumption|].
  replace (a / c * c) with a by (field; lra). assumption.
Qed.

Lemma INR_fact_IZR (n : nat) (z : Z) : Z.of_nat (fact n) = z -> INR (fact n) = IZR z.
Proof. intros <-. apply INR_IZR_INZ. Qed.

Lemma sin_lb_poly (x : R) : sin_lb x = x - x^3/6 + x^5/120 - x^7/5040.
Proof.
  unfold sin_lb, sin_approx, sin_term. cbn [sum_f_R0 Nat.mul Nat.add].
  rewrite (INR_fact_IZR 1 1), (INR_fact_IZR 3 6), (INR_fact_IZR 5 120),
    (INR_fact_IZR 7 5040) by (vm_compute; reflexivity).
  field.
Qed.

Lemma sin_ub_poly (x : R) : sin_ub x = x - x^3/6 + x^5/120 - x^7/5040 + x^9/362880.
Proof.
  unfold sin_ub, sin_approx, sin_term. cbn [sum_f_R0 Nat.mul Nat.add].
  rewrite (INR_fact_IZR 1 1), (INR_fact_IZR 3 6), (INR_fact_IZR 5 120),
    (INR_fact_IZR 7 5040), (INR_fact_IZR 9 362880) by (vm_compute; reflexivity).
  field.
Qed.

Lemma cos_lb_poly (x : R) : cos_lb x = 1 - x^2/2 + x^4/24 - x^6/720.
Proof.
  unfold cos_lb, cos_approx, cos_term. cbn [sum_f_R0 Nat.mul Nat.add].
  rewrite (INR_fact_IZR 0 1), (INR_fact_IZR 2 2), (INR_fact_IZR 4 24),
    (INR_fact_IZR 6 720) by (vm_compute; reflexivity).
  field.
Qed.

Lemma cos_ub_poly (x : R) : cos_ub x = 1 - x^2/2 + x^4/24 - x^6/720 + x^8/40320.
Proof.
  unfold cos_ub, cos_approx, cos_term. cbn [sum_f_R0 Nat.mul Nat.add].
  rewrite (INR_fact_IZR 0 1), (INR_fact_IZR 2 2), (INR_fact_IZR 4 24),
    (INR_fact_IZR 6 720), (INR_fact_IZR 8 40320) by (vm_compute; reflexivity).
  field.
Qed.

Lemma tan_0_4285 : 0.4567 < tan 0.4285 < 0.4569.
Proof.
  assert (3 < PI) as HPI by (pose proof PI2_3_2; lra).
  destruct (SIN 0.4285) as [Hsl Hsu]; [lra | lra |].
  destruct (COS 0.4285) as [Hcl Hcu]; [lra | lra |].
  rewrite sin_lb_poly in Hsl. rewrite sin_ub_poly in Hsu.
  rewrite cos_lb_poly in Hcl. rewrite cos_ub_poly in Hcu.
  assert (0.41550 < sin 0.4285 < 0.41551) as Hs by lra.
  assert (0.90958 < cos 0.4285 < 0.90960) as Hc by lra.
  unfold tan. split.
  - apply lt_div_r; [lra | nra].
  - apply div_lt_l; [lra | nra].
Qed.

Lemma exp_neg_inv (x : R) : exp x * exp (- x) = 1.
Proof. rewrite <- exp_plus, Rplus_opp_r. apply exp_0. Qed.

Lemma exp_le_inv (x : R) : x < 1 -> exp x <= / (1 - x).
Proof.
  intros Hx.
  pose proof (exp_neg_inv x) as Hinv.
  pose proof (exp_ineq1_le (- x)) as Hlo.
  pose proof (exp_pos x) as Hpos.
  apply (Rmult_le_reg_r (1 - x)); [lra|].
  rewrite Rinv_l by lra.
  assert (0 <= exp x * (exp (- x) - (1 - x))) by (apply Rmult_le_pos; lra).
  lra.
Qed.

Lemma exp_double_bounds (h : R) :
  0 <= h < 1 ->
  exp (h + h) <= / (1 - h) * / (1 - h)
  /\ (1 - h) * (1 - h) <= exp (- (h + h)).
Proof.
  intros Hh.
  pose proof (exp_le_inv h ltac:(lra)) as Hup.
  pose proof (exp_ineq1_le (- h)) as Hlo.
  pose proof (exp_pos h) as Hpos.
  replace (- (h + h)) with (- h + - h) by lra.
  rewrite !exp_plus. split; apply Rmult_le_compat; lra.
Qed.

Lemma tanh_0_4285 : 0 < Rtrigo_def.tanh 0.4285 < 0.4494.
Proof.
  destruct (exp_double_bounds 0.21425 ltac:(lra)) as [Hup Hlo].
  pose proof (exp_ineq1_le (0.21425 + 0.21425)) as Hlo1.
  pose proof (exp_le_inv (- (0.21425 + 0.21425)) ltac:(lra)) as Hup1.
  replace (0.21425 + 0.21425) with 0.4285 in * by lra.
  assert (/ (1 - 0.21425) * / (1 - 0.21425) <= 1.6198) as Hc1.
  { apply (Rmult_le_reg_r ((1 - 0.21425) * (1 - 0.21425))); [lra|].
    replace (/ (1 - 0.21425) * / (1 - 0.21425) * ((1 - 0.21425) * (1 - 0.21425)))
      with 1 by (field; lra).
    lra. }
  assert (/ (1 - Ropp 0.4285) <= 0.7001) as Hc2.
  { apply (Rmult_le_reg_r (1 - Ropp 0.4285)); [lra|]. rewrite Rinv_l by lra. lra. }
  unfold Rtrigo_def.tanh, sinh, cosh.
  set (E := exp 0.4285) in *. set (E' := exp (Ropp 0.4285)) in *.
  split.
  - apply Rdiv_lt_0_compat; lra.
  - apply div_lt_l; lra.
Qed.

Lemma fov_to_focal_length_finite (rad res : R) :
  Rtrigo_def.tanh (0.5 * rad) <> 0 ->
  fov_to_focal_length rad res = np.Fin (0.5 * res / Rtrigo_def.tanh (0.5 * rad)).
Proof.
  intros H. unfold fov_to_focal_length, np.divide, np.tanh.
  destruct (decide _); [contradiction | reflexivity].
Qed.

(** C1 (evaluation of the code). For a manifest with
    [camera_angle_x = 0.857] and [w = 800] and no [fl_x] (and a direct
    [fl_y], so that the call returns), the x focal length returned is
    [0.5 * 800 / tanh (0.5 * 0.857)], which is above 890; the value of
    [0.5 * 800 / tan (0.5 * 0.857)] lies between 875 and 876. *)
Theorem C1_fov_focal_length_uses_tanh :
  exists f : R,
    get_focal_lengths {[ "camera_angle_x" := 0.857; "w" := 800; "fl_y" := 800 ]}
      = Ok (np.Fin f, np.Fin 800)
    /\ f = 0.5 * 800 / Rtrigo_def.tanh (0.5 * 0.857)
    /\ 890 < f
    /\ 875 < 0.5 * 800 / tan (0.5 * 0.857) < 876.
Proof.
  pose proof tanh_0_4285 as Ht. pose proof tan_0_4285 as Hn.
  assert (0.5 * 0.857 = 0.4285) as E by lra.
  assert (890 < 0.5 * 800 / Rtrigo_def.tanh (0.5 * 0.857)) as Hf.
  { rewrite E. apply lt_div_r; lra. }
  eexists. split; [|split; [reflexivity|split; [exact Hf|]]].
  - set (meta := ({[ "camera_angle_x" := 0.857; "w" := 800; "fl_y" := 800 ]}
                  : gmap string R)).
    rewrite (get_focal_lengths_resolved meta
               (np.Fin (0.5 * 800 / Rtrigo_def.tanh (0.5 * 0.857))) (np.Fin 800)).
    + simpl. rewrite !bool_decide_eq_false_2 by lra. reflexivity.
    + unfold resolve_fl_x.
      rewrite (contains_None meta "fl_x"), (contains_None meta "x_fov") by reflexivity.
      rewrite (contains_Some meta "camera_angle_x" 0.857) by reflexivity.
      rewrite (dict_getitem_Some meta "camera_angle_x" 0.857) by reflexivity.
      rewrite (dict_getitem_Some meta "w" 800) by reflexivity.
      simpl. rewrite fov_to_focal_length_finite; [reflexivity | rewrite E; lra].
    + unfold resolve_fl_y.
      rewrite (contains_Some meta "fl_y" 800) by reflexivity.
      rewrite (dict_getitem_Some meta "fl_y" 800) by reflexivity.
      reflexivity.
  - rewrite E. split; [apply lt_div_r | apply div_lt_l]; lra.
Qed.

End FovFormula.

(** ** The depth file name *)

Lemma substring_0_split (n : nat) (s : string) :
  exists suf,
    s = String.substring 0 n s +:+ suf
    /\ String.length suf = String.length s - n.
Proof.
  revert n. induction s as [|c s IH]; intros [|n]; simpl.
  - by exists "".
  - by exists "".
  - by exists (String c s).
  - destruct (IH n) as (suf & Hs & Hl). exists suf. split; [|assumption].
    change (String c s = String c (String.substring 0 n s +:+ suf)). by rewrite <- Hs.
Qed.

Lemma slice_to_minus4 (s : string) :
  Py.slice_to s (-4) = String.substring 0 (String.length s - 4) s.
Proof.
  unfold Py.slice_to. f_equal.
  change (-4 <? 0)%Z with true. cbv iota. lia.
Qed.

(** C10. The depth file name is the frame's [file_path] without its last
    four characters (all of them, when there are fewer than four),
    followed by "_disp.npy", whatever those characters are: a path of
    fewer than four characters gives "_disp.npy" alone, and "img.jpeg"
    gives "img._disp.npy". Whenever the frame loop completes, the depth
    file of every retained frame has been loaded under that name, joined
    to the data directory. *)
Theorem C10_depth_file_drops_last_four :
  (forall s : string,
      exists pre suf,
        s = pre +:+ suf
        /\ String.length suf = min 4 (String.length s)
        /\ depth_file s = pre +:+ "_disp.npy")
  /\ (forall s : string, String.length s < 4 -> depth_file s = "_disp.npy")
  /\ depth_file "img.jpeg" = "img._disp.npy"
  /\ (forall config fs fr st,
        for_frames config fs loop_init fr = Ok st ->
        Forall (fun f => is_Some (np_load fs (data config //
                                               pathlib.of_string (depth_file (file_path f)))))
          (retained config fr)).
Proof.
  split; [|split; [|split]].
  - intros s. unfold depth_file. rewrite slice_to_minus4.
    destruct (substring_0_split (String.length s - 4) s) as (suf & Hs & Hl).
    exists (String.substring 0 (String.length s - 4) s), suf.
    split; [assumption|]. split; [lia | reflexivity].
  - intros s Hlt. unfold depth_file. rewrite slice_to_minus4.
    replace (String.length s - 4) with 0 by lia.
    by destruct s.
  - reflexivity.
  - intros config fs fr st (_ & _ & (ds & _ & Hds) & _)%for_frames_spec.
    induction Hds as [|f d fr' ds' (arr & arr_0 & Hload & _) _ IH]; constructor;
      [by rewrite Hload | assumption].
Qed.

(** ** Which exceptions the parser can raise *)

Lemma of_option_Raise {A : Type} (e0 e : exn) (o : option A) :
  of_option e0 o = Raise e -> e = e0.
Proof. destruct o; simpl; congruence. Qed.

Lemma py_getitem_Raise {A : Type} (l : list A) (i : Z) (e : exn) :
  Py.getitem l i = Raise e -> e = IndexError.
Proof.
  unfold Py.getitem.
  repeat match goal with |- context [if ?c then _ else _] => destruct c end;
    intros H; first [by apply of_option_Raise in H | congruence].
Qed.

Lemma np_getitem_Raise (a : np.ndarray) (i : Z) (e : exn) :
  np.getitem a i = Raise e -> e = IndexError.
Proof. destruct a; simpl; [congruence | apply py_getitem_Raise]. Qed.

Lemma array2_Raise (m : list (list R)) (e : exn) :
  np.array2 m = Raise e -> e = ValueError.
Proof. unfold np.array2. destruct (np.regular m); congruence. Qed.

Lemma array3_Raise (ms : list np.matrix) (e : exn) :
  np.array3 ms = Raise e -> e = ValueError.
Proof.
  unfold np.array3. destruct ms as [|m rest]; [discriminate|].
  destruct (forallb _ _); congruence.
Qed.

Lemma imul_translation_Raise (s : R) (a : list np.matrix) (e : exn) :
  np.imul_translation s a = Raise e -> e = IndexError.
Proof.
  unfold np.imul_translation. destruct a as [|[|r m] a]; try congruence.
  destruct (3 <? length r); congruence.
Qed.

Lemma unpack2_Raise {A : Type} (t : list A) (e : exn) :
  Py.unpack2 t = Raise e -> e = ValueError.
Proof. destruct t as [|a [|b [|c t]]]; simpl; congruence. Qed.

Lemma get_focal_lengths_Raise (meta : gmap string R) (e : exn) :
  get_focal_lengths meta = Raise e ->
  (exists k, e = KeyError k) \/ e = AttributeError focal_msg.
Proof.
  unfold get_focal_lengths. intros H.
  destruct (resolve_fl_x meta) as [x|ex] eqn:Ex; simpl in H;
    [|injection H as <-; left; by eapply resolve_fl_x_Raise].
  destruct (resolve_fl_y meta) as [y|ey] eqn:Ey; simpl in H;
    [|injection H as <-; left; by eapply resolve_fl_y_Raise].
  destruct (np.eq_zero x || np.eq_zero y); [|discriminate].
  injection H as <-. by right.
Qed.

(** Peel one failing or succeeding step off a sequence that raises. *)
Ltac raise_step H :=
  match type of H with
  | (?m ≫= _) = Raise _ =>
      let E := fresh "E" in
      destruct m eqn:E; simpl in H;
      [| injection H as H;
         first [ apply array2_Raise in E | apply array3_Raise in E
               | apply imul_translation_Raise in E | apply np_getitem_Raise in E
               | apply unpack2_Raise in E | apply of_option_Raise in E
               | apply dict_getitem_Raise in E ];
         congruence ]
  end.

Lemma loop_body_Raise config fs st f e :
  loop_body config fs st f = Raise e -> e <> AssertionError.
Proof.
  unfold loop_body. destruct (negb _); [discriminate|]. intros H.
  repeat raise_step H.
  match type of H with context [let '(_, _) := ?p in _] => destruct p end.
  discriminate.
Qed.

Lemma for_frames_Raise config fs fr : forall st e,
  for_frames config fs st fr = Raise e -> e <> AssertionError.
Proof.
  induction fr as [|f fr IH]; intros st e H; simpl in H; [discriminate|].
  destruct (loop_body config fs st f) as [st1|e1] eqn:E; simpl in H.
  - by eapply IH.
  - injection H as <-. by eapply loop_body_Raise.
Qed.

Lemma assemble_AssertionError {D : Type} (gdp : R -> R -> R -> R -> D) config meta st :
  assemble gdp config meta st = Raise AssertionError -> st_image_filenames st = [].
Proof.
  unfold assemble.
  destruct (length (st_image_filenames st) =? 0) eqn:Hlen.
  { intros _. apply Nat.eqb_eq in Hlen. by apply length_zero_iff_nil. }
  intros H. exfalso.
  do 7 raise_step H.
  destruct (get_focal_lengths (fields meta)) as [[fl_x fl_y]|e] eqn:Efl; simpl in H.
  - repeat raise_step H. discriminate.
  - injection H as ->. apply get_focal_lengths_Raise in Efl as [[k ?]|?]; congruence.
Qed.

(** The zero-frames assertion fails only for a manifest without frames. *)
Lemma parse_AssertionError {D : Type} (gdp : R -> R -> R -> R -> D) config fs meta split :
  snd (_generate_dataparser_outputs gdp config fs meta split) = Raise AssertionError ->
  frames meta = [].
Proof.
  unfold _generate_dataparser_outputs.
  destruct (for_frames config fs loop_init (frames meta)) as [st|e] eqn:E; simpl.
  - intros H%assemble_AssertionError.
    apply for_frames_never_skips in E as [_ Hlen].
    rewrite H in Hlen. symmetry in Hlen. by apply length_zero_iff_nil.
  - intros [= ->]. by apply for_frames_Raise in E.
Qed.

(** ** The sample dataset, evaluated *)

Lemma example_intrinsics_focal :
  get_focal_lengths Example.intrinsics = Ok (np.Fin 50, np.Fin 60).
Proof. apply get_focal_lengths_direct; [reflexivity | reflexivity | lra | lra]. Qed.

Lemma example_assemble (st : LoopState) (a : list np.matrix) :
  st_image_filenames st <> [] ->
  np.array3 (st_poses st) = Ok (st_poses st) ->
  np.imul_translation 0.33 (st_poses st) = Ok a ->
  assemble Example.get_distortion_params Example.config
    {| frames := []; fields := Example.intrinsics |} st =
  Ok {| image_filenames := st_image_filenames st;
        cameras :=
          {| fx := np.Fin 50; fy := np.Fin 60; cx := 400; cy := 300;
             distortion_params := [0; 0; 0; 0; 0; 0]%R;
             height := 600; width := 800;
             camera_to_worlds := np.top3 a;
             camera_type := PERSPECTIVE |};
        scene_box := {| aabb := [[- (4); - (4); - (4)]; [4; 4; 4]]%R |};
        additional_inputs :=
          {[ "semantics" :=
               {| func := get_depths; kwargs := {[ "depths" := st_depths st ]} |} ]};
        depths := st_depths st |}.
Proof.
  intros Hne Harr Hmul.
  rewrite (assemble_Ok _ Example.config _ st a 0 0 0 0 4 (np.Fin 50) (np.Fin 60)
             400 300 600 800);
    try assumption; try (vm_compute; reflexivity).
  - by rewrite !int_IZR.
  - apply example_intrinsics_focal.
Qed.

Lemma example_loop :
  for_frames Example.config Example.fs loop_init (frames Example.meta)
  = Ok {| st_image_filenames := [pathlib.of_string "data/ours/posterv2/images/0001.png"];
          st_poses := [Example.pose0];
          st_depths := [Example.depth_map];
          st_num_skipped := 0 |}.
Proof. vm_compute. reflexivity. Qed.

Lemma example_parse :
  _generate_dataparser_outputs Example.get_distortion_params Example.config
    Example.fs Example.meta "train"
  = (["Skipping 0 files in dataset split train."], Ok Example.out).
Proof.
  unfold _generate_dataparser_outputs. rewrite example_loop.
  cbv beta iota. f_equal.
  change (assemble Example.get_distortion_params Example.config Example.meta)
    with (assemble Example.get_distortion_params Example.config
            {| frames := []; fields := Example.intrinsics |}).
  rewrite (example_assemble _
             [[[1; 0; 0; 2 * 0.33]; [0; 1; 0; 4 * 0.33]; [0; 0; 1; 6 * 0.33];
               [0; 0; 0; 1]]]%R);
    [reflexivity | done | reflexivity | reflexivity].
Qed.

Lemma example_parse_snd :
  snd (_generate_dataparser_outputs Example.get_distortion_params Example.config
         Example.fs Example.meta "train") = Ok Example.out.
Proof. by rewrite example_parse. Qed.

Lemma example_blank_loop :
  for_frames Example.config Example.fs_blank loop_init (frames Example.meta_blank)
  = Ok {| st_image_filenames := [Example.root];
          st_poses := [Example.pose0];
          st_depths := [Example.depth_map];
          st_num_skipped := 0 |}.
Proof. vm_compute. reflexivity. Qed.

Lemma example_blank_missing_file :
  for_frames Example.config Example.fs loop_init (frames Example.meta_blank)
  = Raise OSError.
Proof. vm_compute. reflexivity. Qed.

Lemma skip_message_0_1 (split : string) : skip_message 0 split <> skip_message 1 split.
Proof. unfold skip_message. vm_compute. discriminate. Qed.

(** ** Empty file paths *)

(** C2 (evaluation of the code). For the manifest whose single frame has
    the empty [file_path]: on no filesystem and for no split does the
    parse fail with the zero-frames assertion or report one skipped
    file; where the derived depth file is missing it raises the I/O
    error before anything is printed; where the derived files can be
    read it reports 0 skipped files and returns the frame, retained,
    with the data directory as its image path. *)
Theorem C2_empty_file_path_frame_is_retained :
  (forall (fs : FileSystem) (split : string),
      snd (_generate_dataparser_outputs Example.get_distortion_params Example.config
             fs Example.meta_blank split) <> Raise AssertionError
      /\ fst (_generate_dataparser_outputs Example.get_distortion_params Example.config
                fs Example.meta_blank split) <> [skip_message 1 split])
  /\ _generate_dataparser_outputs Example.get_distortion_params Example.config
       Example.fs Example.meta_blank "train" = ([], Raise OSError)
  /\ exists out,
       _generate_dataparser_outputs Example.get_distortion_params Example.config
         Example.fs_blank Example.meta_blank "train"
       = (["Skipping 0 files in dataset split train."], Ok out)
       /\ image_filenames out = [Example.root]
       /\ depths out = [Example.depth_map].
Proof.
  split; [|split].
  - intros fs split. split.
    + intros H%parse_AssertionError. discriminate.
    + unfold _generate_dataparser_outputs.
      destruct (for_frames _ fs _ _) as [st|e] eqn:E; simpl; [|discriminate].
      apply for_frames_never_skips in E as [-> _]. simpl.
      intros H. apply (skip_message_0_1 split). congruence.
  - unfold _generate_dataparser_outputs. by rewrite example_blank_missing_file.
  - eexists. unfold _generate_dataparser_outputs. rewrite example_blank_loop.
    cbv beta iota.
    change (assemble Example.get_distortion_params Example.config Example.meta_blank)
      with (assemble Example.get_distortion_params Example.config
              {| frames := []; fields := Example.intrinsics |}).
    rewrite (example_assemble _
               [[[1; 0; 0; 2 * 0.33]; [0; 1; 0; 4 * 0.33]; [0; 0; 1; 6 * 0.33];
                 [0; 0; 0; 1]]]%R);
      [|done|reflexivity|reflexivity].
    split; [reflexivity|]. split; reflexivity.
Qed.

(** ** The theorems at the sample dataset *)

Lemma C3_focal_length_priority_witness :
  (Example.intrinsics !! "fl_x" = Some 50%R
   /\ Example.intrinsics !! "fl_y" = Some 60%R
   /\ 50%R <> 0%R /\ 60%R <> 0%R
   /\ resolve_fl_x Example.intrinsics = Ok (np.Fin 50)
   /\ get_focal_lengths Example.intrinsics = Ok (np.Fin 50, np.Fin 60))
  /\ resolve_fl_x {[ "camera_angle_x" := 0.857%R; "w" := 800%R ]}
     = Ok (fov_to_focal_length 0.857 800).
Proof.
  assert (Example.intrinsics !! "fl_x" = Some 50%R) as Hx by reflexivity.
  assert (Example.intrinsics !! "fl_y" = Some 60%R) as Hy by reflexivity.
  assert (50%R <> 0%R) as Hx0 by lra.
  assert (60%R <> 0%R) as Hy0 by lra.
  split.
  - destruct (C3_focal_length_priority Example.intrinsics)
      as ((Hdirect & _) & _ & _ & _ & Hboth & _).
    exact (conj Hx (conj Hy (conj Hx0 (conj Hy0
             (conj (Hdirect _ Hx) (Hboth _ _ Hx Hy Hx0 Hy0)))))).
  - destruct (C3_focal_length_priority {[ "camera_angle_x" := 0.857%R; "w" := 800%R ]})
      as ((_ & _ & Hrad & _) & _).
    apply Hrad; reflexivity.
Defined.

Lemma C4_translation_scaled_rotation_kept_witness :
  snd (_generate_dataparser_outputs Example.get_distortion_params Example.config
         Example.fs Example.meta "train") = Ok Example.out
  /\ exists p,
       camera_to_worlds (cameras Example.out) !! 0 = Some p
       /\ length p = 3
       /\ entry p 1 3 = Some (4 * 0.33)%R
       /\ entry p 1 1 = Some 1%R.
Proof.
  split; [exact example_parse_snd|].
  destruct (C4_translation_scaled_rotation_kept _ _ _ _ _ _ example_parse_snd) as [_ H].
  destruct (H 0 Example.frame0 eq_refl) as (p & Hp & Hlen & Hent).
  exists p. split; [exact Hp|]. split; [exact Hlen|].
  split; [exact (Hent 1 3 ltac:(lia)) | exact (Hent 1 1 ltac:(lia))].
Defined.

Lemma C5_retained_sequences_aligned_witness :
  snd (_generate_dataparser_outputs Example.get_distortion_params Example.config
         Example.fs Example.meta "train") = Ok Example.out
  /\ exists skipped,
       fst (_generate_dataparser_outputs Example.get_distortion_params Example.config
              Example.fs Example.meta "train") = [skip_message skipped "train"]
       /\ length (image_filenames Example.out) = 1 - skipped
       /\ length (camera_to_worlds (cameras Example.out)) = 1 - skipped
       /\ length (depths Example.out) = 1 - skipped.
Proof.
  split; [exact example_parse_snd|].
  destruct (C5_retained_sequences_aligned Example.get_distortion_params
              Example.config Example.fs Example.meta) as [_ Hparse].
  destruct (Hparse _ _ example_parse_snd) as (skipped & Hlog & Hi & Hc & Hd & _).
  exists skipped. exact (conj Hlog (conj Hi (conj Hc Hd))).
Defined.

Lemma C6_depth_loaded_from_disp_file_witness :
  snd (_generate_dataparser_outputs Example.get_distortion_params Example.config
         Example.fs Example.meta "train") = Ok Example.out
  /\ retained Example.config (frames Example.meta) !! 0 = Some Example.frame0
  /\ image_filenames Example.out !! 0
     = Some (Example.root // pathlib.of_string "images/0001.png")
  /\ exists arr arr_0 d,
       np_load Example.fs
         (Example.root // pathlib.of_string (Py.slice_to "images/0001.png" (-4) +:+ "_disp.npy"))
         = Some arr
       /\ np.getitem arr 0 = Ok arr_0
       /\ np.getitem arr_0 0 = Ok d
       /\ depths Example.out !! 0 = Some d
       /\ exists desc ds,
            additional_inputs Example.out !! "semantics" = Some desc
            /\ kwargs desc !! "depths" = Some ds
            /\ func desc 0 ds = Ok {[ "depth" := d ]}.
Proof.
  split; [exact example_parse_snd|]. split; [reflexivity|].
  exact (C6_depth_loaded_from_disp_file _ _ _ _ _ _ example_parse_snd
           0 Example.frame0 eq_refl).
Defined.

Lemma example_same_decode (p : Path) :
  same_decode (imageio_imread Example.fs p) (imageio_imread Example.fs_thumbnail p).
Proof.
  unfold same_decode. simpl.
  destruct (decide (p = _)); [|exact I].
  simpl. split; intros _; lia.
Qed.

Lemma C7_height_width_from_manifest_witness :
  snd (_generate_dataparser_outputs Example.get_distortion_params Example.config
         Example.fs Example.meta "train") = Ok Example.out
  /\ (exists h w,
         fields Example.meta !! "h" = Some h /\ fields Example.meta !! "w" = Some w
         /\ height (cameras Example.out) = Py.int h
         /\ width (cameras Example.out) = Py.int w)
  /\ _generate_dataparser_outputs Example.get_distortion_params Example.config
       Example.fs_thumbnail Example.meta "train"
     = _generate_dataparser_outputs Example.get_distortion_params Example.config
         Example.fs Example.meta "train".
Proof.
  split; [exact example_parse_snd|].
  destruct (C7_height_width_from_manifest Example.get_distortion_params
              Example.config Example.fs Example.meta "train") as [Hhw Hfs].
  split.
  - exact (Hhw _ example_parse_snd).
  - apply Hfs; [reflexivity | exact example_same_decode].
Defined.

Lemma C9_descriptor_stored_under_semantics_witness :
  snd (_generate_dataparser_outputs Example.get_distortion_params Example.config
         Example.fs Example.meta "train") = Ok Example.out
  /\ additional_inputs Example.out !! "semantics"
     = Some {| func := get_depths; kwargs := {[ "depths" := [Example.depth_map] ]} |}
  /\ additional_inputs Example.out !! "depth" = None
  /\ get_depths 0 (depths Example.out) = Ok {[ "depth" := Example.depth_map ]}.
Proof.
  split; [exact example_parse_snd|].
  destruct (C9_descriptor_stored_under_semantics _ _ _ _ _ _ example_parse_snd)
    as (Hsem & Hdepth & _ & _).
  split; [exact Hsem|]. split; [exact Hdepth | reflexivity].
Defined.

Lemma C10_depth_file_drops_last_four_witness :
  String.length "abc" < 4 /\ depth_file "abc" = "_disp.npy".
Proof.
  assert (String.length "abc" < 4) as H by (simpl; lia).
  split; [exact H|].
  exact (proj1 (proj2 C10_depth_file_drops_last_four) "abc" H).
Defined.

(** * Part III: further properties of the code *)

(** ** The depth lookup *)

(** X1. [get_depths] accepts exactly the indices from [-len] to
    [len - 1]: a non-negative index selects from the front, a negative
    one from the end, and every other index raises [IndexError]. *)
Theorem X1_get_depths_index_range (i : Z) (depths : list np.ndarray) :
  ((0 <= i < Z.of_nat (length depths))%Z ->
   exists d, depths !! Z.to_nat i = Some d
             /\ get_depths i depths = Ok {[ "depth" := d ]})
  /\ ((- Z.of_nat (length depths) <= i < 0)%Z ->
      exists d, depths !! (length depths - Z.to_nat (- i)) = Some d
                /\ get_depths i depths = Ok {[ "depth" := d ]})
  /\ ((i < - Z.of_nat (length depths) \/ Z.of_nat (length depths) <= i)%Z ->
      get_depths i depths = Raise IndexError).
Proof.
  unfold get_depths, Py.getitem. split; [|split].
  - intros [H0 Hn].
    destruct (lookup_lt_is_Some_2 depths (Z.to_nat i)) as [d Hd]; [lia|].
    exists d. split; [assumption|].
    destruct (Z.leb_spec 0 i); [|lia]. destruct (Z.ltb_spec i (Z.of_nat (length depths))); [|lia].
    simpl. by rewrite Hd.
  - intros [Hn H0].
    destruct (lookup_lt_is_Some_2 depths (length depths - Z.to_nat (- i))) as [d Hd]; [lia|].
    exists d. split; [assumption|].
    destruct (Z.leb_spec 0 i); [lia|]. simpl.
    destruct (Z.leb_spec (- Z.of_nat (length depths)) i); [|lia].
    destruct (Z.ltb_spec i 0); [|lia]. simpl.
    replace (Z.to_nat (Z.of_nat (length depths) + i))
      with (length depths - Z.to_nat (- i)) by lia.
    by rewrite Hd.
  - intros H.
    destruct (Z.leb_spec 0 i), (Z.ltb_spec i (Z.of_nat (length depths))),
      (Z.leb_spec (- Z.of_nat (length depths)) i), (Z.ltb_spec i 0);
      simpl; try reflexivity; lia.
Qed.

Lemma X1_get_depths_index_range_witness :
  (-2 <= -1 < 0)%Z
  /\ exists d, [Example.depth_map; Example.disp] !! 1 = Some d
               /\ get_depths (-1) [Example.depth_map; Example.disp] = Ok {[ "depth" := d ]}.
Proof.
  assert (- Z.of_nat (length [Example.depth_map; Example.disp]) <= -1 < 0)%Z as H
    by (simpl; lia).
  split; [exact H|].
  exact (proj1 (proj2 (X1_get_depths_index_range (-1) [Example.depth_map; Example.disp])) H).
Defined.

(** ** Focal lengths: missing keys *)

Lemma resolve_fl_x_lookup (meta : gmap string R) :
  resolve_fl_x meta =
  match meta !! "fl_x", meta !! "x_fov", meta !! "camera_angle_x", meta !! "w" with
  | Some v, _, _, _ => Ok (np.Fin v)
  | None, Some d, _, Some w => Ok (fov_to_focal_length (np.deg2rad d) w)
  | None, None, Some a, Some w => Ok (fov_to_focal_length a w)
  | None, None, None, _ => Ok (np.Fin 0)
  | None, _, _, None => Raise (KeyError "w")
  end.
Proof.
  unfold resolve_fl_x, Py.contains, Py.dict_getitem.
  destruct (meta !! "fl_x"), (meta !! "x_fov"), (meta !! "camera_angle_x"), (meta !! "w");
    reflexivity.
Qed.

Lemma resolve_fl_y_lookup (meta : gmap string R) :
  resolve_fl_y meta =
  match meta !! "fl_y", meta !! "y_fov", meta !! "camera_angle_y", meta !! "h" with
  | Some v, _, _, _ => Ok (np.Fin v)
  | None, Some d, _, Some h => Ok (fov_to_focal_length (np.deg2rad d) h)
  | None, None, Some a, Some h => Ok (fov_to_focal_length a h)
  | None, None, None, _ => Ok (np.Fin 0)
  | None, _, _, None => Raise (KeyError "h")
  end.
Proof.
  unfold resolve_fl_y, Py.contains, Py.dict_getitem.
  destruct (meta !! "fl_y"), (meta !! "y_fov"), (meta !! "camera_angle_y"), (meta !! "h");
    reflexivity.
Qed.

(** X2. [get_focal_lengths] raises nothing but [KeyError] for "w" or "h"
    and the focal-length error. It raises [KeyError] for "w" exactly when
    [fl_x] is absent, one of the two x field-of-view keys is present and
    "w" is absent; when the x axis resolves, it raises [KeyError] for "h"
    exactly when the same holds of the y keys and "h". *)
Theorem X2_focal_length_key_errors (meta : gmap string R) :
  (forall e, get_focal_lengths meta = Raise e ->
             e = KeyError "w" \/ e = KeyError "h" \/ e = AttributeError focal_msg)
  /\ (get_focal_lengths meta = Raise (KeyError "w") <->
      meta !! "fl_x" = None
      /\ (is_Some (meta !! "x_fov") \/ is_Some (meta !! "camera_angle_x"))
      /\ meta !! "w" = None)
  /\ (forall x, resolve_fl_x meta = Ok x ->
        (get_focal_lengths meta = Raise (KeyError "h") <->
         meta !! "fl_y" = None
         /\ (is_Some (meta !! "y_fov") \/ is_Some (meta !! "camera_angle_y"))
         /\ meta !! "h" = None)).
Proof.
  unfold get_focal_lengths. rewrite resolve_fl_x_lookup, resolve_fl_y_lookup.
  split; [|split].
  - intros e.
    destruct (meta !! "fl_x"), (meta !! "x_fov"), (meta !! "camera_angle_x"), (meta !! "w"),
      (meta !! "fl_y"), (meta !! "y_fov"), (meta !! "camera_angle_y"), (meta !! "h");
      simpl;
      repeat match goal with |- context [if ?c then _ else _] => destruct c end;
      intros [= <-]; auto.
  - destruct (meta !! "fl_x"), (meta !! "x_fov"), (meta !! "camera_angle_x"), (meta !! "w"),
      (meta !! "fl_y"), (meta !! "y_fov"), (meta !! "camera_angle_y"), (meta !! "h");
      simpl;
      repeat match goal with |- context [if ?c then _ else _] => destruct c end;
      (split;
       [ intros [=]
       | intros (? & [[? ?]|[? ?]] & ?); congruence ]);
      auto.
  - intros x.
    destruct (meta !! "fl_x"), (meta !! "x_fov"), (meta !! "camera_angle_x"), (meta !! "w"),
      (meta !! "fl_y"), (meta !! "y_fov"), (meta !! "camera_angle_y"), (meta !! "h");
      simpl; intros [= <-];
      repeat match goal with |- context [if ?c then _ else _] => destruct c end;
      (split;
       [ intros [=]
       | intros (? & [[? ?]|[? ?]] & ?); congruence ]);
      auto.
Qed.

Lemma X2_focal_length_key_errors_witness :
  ({[ "x_fov" := 49.1%R ]} : gmap string R) !! "fl_x" = None
  /\ get_focal_lengths {[ "x_fov" := 49.1%R ]} = Raise (KeyError "w").
Proof.
  assert (({[ "x_fov" := 49.1%R ]} : gmap string R) !! "fl_x" = None) as Hfl by reflexivity.
  split; [exact Hfl|].
  apply (proj2 (proj1 (proj2 (X2_focal_length_key_errors {[ "x_fov" := 49.1%R ]})))).
  split; [exact Hfl|]. split; [|reflexivity].
  left. exists 49.1%R. reflexivity.
Defined.

(** ** The field-of-view conversion: sign and size *)

Section FovRange.

Local Open Scope R_scope.








End FovRange.

(** ** The depth file of an image with a four-character extension *)

Lemma string_length_app (a b : string) :
  String.length (a +:+ b) = String.length a + String.length b.
Proof. induction a as [|c a IH]; simpl; [reflexivity | by rewrite IH]. Qed.

Lemma substring_0_app (a b : string) :
  String.substring 0 (String.length a) (a +:+ b) = a.
Proof.
  induction a as [|c a IH]; simpl.
  - by destruct b.
  - by rewrite IH.
Qed.

(** X4. For an image path made of a stem and four more characters
    (".png", ".jpg"), the depth file is the stem followed by
    "_disp.npy"; so two images that differ only in those four characters
    share one depth file. *)
Theorem X4_depth_file_of_stem (stem ext : string) :
  String.length ext = 4 ->
  depth_file (stem +:+ ext) = stem +:+ "_disp.npy"
  /\ forall ext', String.length ext' = 4 ->
                  depth_file (stem +:+ ext') = depth_file (stem +:+ ext).
Proof.
  assert (forall e, String.length e = 4 -> depth_file (stem +:+ e) = stem +:+ "_disp.npy")
    as H.
  { intros e He. unfold depth_file. rewrite slice_to_minus4, string_length_app, He.
    replace (String.length stem + 4 - 4) with (String.length stem) by lia.
    by rewrite substring_0_app. }
  intros Hext. split; [by apply H|].
  intros ext' Hext'. by rewrite !H.
Qed.

Lemma X4_depth_file_of_stem_witness :
  String.length ".png" = 4
  /\ depth_file ("images/0001" +:+ ".png") = "images/0001" +:+ "_disp.npy".
Proof.
  assert (String.length ".png" = 4) as H by reflexivity.
  split; [exact H|].
  exact (proj1 (X4_depth_file_of_stem "images/0001" ".png" H)).
Defined.

(** ** When the frame loop completes *)

Lemma unpack2_take2_Ok (shape : list nat) (hw : nat * nat) :
  Py.unpack2 (take 2 shape) = Ok hw -> 2 <= length shape.
Proof. rewrite unpack2_take2. destruct (decide _); [done | discriminate]. Qed.

Lemma loop_body_frame_ok config fs st f st' :
  loop_body config fs st f = Ok st' -> frame_ok config fs f.
Proof.
  unfold loop_body, pathlib.truthy. simpl. intros H. ok_inv H.
  unfold np.array2 in Hv. destruct (np.regular (transform_matrix f)) eqn:Hreg;
    [|discriminate].
  apply of_option_Ok_inv in Hv0, Hv3. apply unpack2_take2_Ok in Hv4.
  split; [exact Hreg|]. split.
  - exists v2, v0, v1. done.
  - exists v3. done.
Qed.

Lemma loop_body_complete config fs st f :
  frame_ok config fs f ->
  exists d,
    frame_depth config fs f d
    /\ loop_body config fs st f =
       Ok {| st_image_filenames := st_image_filenames st ++ [frame_fname config f];
             st_poses := st_poses st ++ [transform_matrix f];
             st_depths := st_depths st ++ [d];
             st_num_skipped := st_num_skipped st |}.
Proof.
  intros (Hreg & (d & arr & arr_0 & Hload & H0 & H00) & img & Himg & Hshape).
  exists d. split; [by exists arr, arr_0|].
  unfold loop_body, pathlib.truthy, np.array2. simpl.
  rewrite Hreg. simpl. rewrite Hload. simpl. rewrite H0. simpl. rewrite H00. simpl.
  unfold frame_fname in Himg. rewrite Himg. simpl.
  rewrite unpack2_take2. destruct (decide _); [reflexivity | lia].
Qed.

Lemma for_frames_complete config fs fr : forall st,
  Forall (frame_ok config fs) fr ->
  exists ds,
    Forall2 (frame_depth config fs) fr ds
    /\ for_frames config fs st fr =
       Ok {| st_image_filenames := st_image_filenames st ++ (frame_fname config <$> fr);
             st_poses := st_poses st ++ (transform_matrix <$> fr);
             st_depths := st_depths st ++ ds;
             st_num_skipped := st_num_skipped st |}.
Proof.
  induction fr as [|f fr IH]; intros st Hok.
  - exists []. split; [constructor|]. simpl. rewrite !app_nil_r. by destruct st.
  - apply Forall_cons in Hok as [Hf Hfr].
    destruct (loop_body_complete config fs st f Hf) as (d & Hd & Hbody).
    destruct (IH {| st_image_filenames := st_image_filenames st ++ [frame_fname config f];
                    st_poses := st_poses st ++ [transform_matrix f];
                    st_depths := st_depths st ++ [d];
                    st_num_skipped := st_num_skipped st |} Hfr) as (ds & Hds & Hloop).
    exists (d :: ds). split; [by constructor|].
    simpl. rewrite Hbody. simpl. rewrite Hloop. simpl.
    by rewrite <- !app_assoc.
Qed.

Lemma for_frames_frame_ok config fs fr : forall st st',
  for_frames config fs st fr = Ok st' -> Forall (frame_ok config fs) fr.
Proof.
  induction fr as [|f fr IH]; intros st st' H; [constructor|].
  simpl in H. apply bind_Ok_inv in H as (st1 & H1 & H).
  constructor; [by eapply loop_body_frame_ok | by eapply IH].
Qed.

(** X5. The frame loop completes exactly when every frame of the
    manifest has a rectangular pose, a depth file that loads and can be
    indexed twice, and an image that decodes to at least two axes. It
    then holds the image path and the pose of every frame, in manifest
    order, one depth array per frame, and a skip counter of 0. *)
Theorem X5_loop_completes_iff_frames_ok config fs (fr : list Frame) :
  (Forall (frame_ok config fs) fr ->
   exists st,
     for_frames config fs loop_init fr = Ok st
     /\ st_image_filenames st = frame_fname config <$> fr
     /\ st_poses st = transform_matrix <$> fr
     /\ Forall2 (frame_depth config fs) fr (st_depths st)
     /\ st_num_skipped st = 0)
  /\ (forall st, for_frames config fs loop_init fr = Ok st ->
                 Forall (frame_ok config fs) fr).
Proof.
  split.
  - intros Hok.
    destruct (for_frames_complete config fs fr loop_init Hok) as (ds & Hds & Hloop).
    eexists. split; [exact Hloop|]. simpl. done.
  - intros st. apply for_frames_frame_ok.
Qed.

Lemma example_frame0_ok : frame_ok Example.config Example.fs Example.frame0.
Proof.
  split; [reflexivity|]. split.
  - exists Example.depth_map, Example.disp, (np.Array [Example.depth_map]).
    split; [reflexivity|]. split; reflexivity.
  - exists Example.picture. split; [reflexivity | simpl; lia].
Qed.

Lemma X5_loop_completes_iff_frames_ok_witness :
  Forall (frame_ok Example.config Example.fs) [Example.frame0]
  /\ exists st,
       for_frames Example.config Example.fs loop_init [Example.frame0] = Ok st
       /\ st_image_filenames st = [frame_fname Example.config Example.frame0]
       /\ st_num_skipped st = 0.
Proof.
  assert (Forall (frame_ok Example.config Example.fs) [Example.frame0]) as H
    by (constructor; [exact example_frame0_ok | constructor]).
  split; [exact H|].
  destruct (proj1 (X5_loop_completes_iff_frames_ok Example.config Example.fs
                     [Example.frame0]) H) as (st & Hloop & Hf & _ & _ & Hn).
  exists st. exact (conj Hloop (conj Hf Hn)).
Defined.

(** ** The log line and the exceptions of the loop *)



Section Further.

Context {DistortionParams : Type}.
Variable get_distortion_params : R -> R -> R -> R -> DistortionParams.

Abbreviation parse' := (_generate_dataparser_outputs get_distortion_params).


(** X7. The zero-frames assertion fails exactly for a manifest whose
    frame array is empty; the line reporting 0 skipped files has then
    been printed, and nothing of the filesystem or of the scalar entries
    matters. *)
Theorem X7_assertion_iff_no_frames config fs meta split :
  (snd (parse' config fs meta split) = Raise AssertionError <-> frames meta = [])
  /\ (frames meta = [] ->
      parse' config fs meta split = ([skip_message 0 split], Raise AssertionError)).
Proof.
  assert (frames meta = [] ->
          parse' config fs meta split = ([skip_message 0 split], Raise AssertionError)) as H.
  { intros Hnil. unfold _generate_dataparser_outputs. rewrite Hnil. reflexivity. }
  split; [|exact H]. split.
  - apply parse_AssertionError.
  - intros Hnil. by rewrite (H Hnil).
Qed.

End Further.

Lemma X7_assertion_iff_no_frames_witness :
  frames {| frames := []; fields := Example.intrinsics |} = []
  /\ _generate_dataparser_outputs Example.get_distortion_params Example.config Example.fs
       {| frames := []; fields := Example.intrinsics |} "val"
     = ([skip_message 0 "val"], Raise AssertionError).
Proof.
  split; [reflexivity|].
  exact (proj2 (X7_assertion_iff_no_frames Example.get_distortion_params Example.config
                  Example.fs {| frames := []; fields := Example.intrinsics |} "val")
           eq_refl).
Defined.

(** ** What the parse reads and what it ignores *)

Lemma loop_body_footprint config fs fs' st f :
  np_load fs' (data config // pathlib.of_string (depth_file (file_path f)))
    = np_load fs (data config // pathlib.of_string (depth_file (file_path f))) ->
  imageio_imread fs' (frame_fname config f) = imageio_imread fs (frame_fname config f) ->
  loop_body config fs' st f = loop_body config fs st f.
Proof.
  unfold loop_body, frame_fname. by intros -> ->.
Qed.

Lemma for_frames_footprint config fs fs' fr :
  Forall (fun f =>
            np_load fs' (data config // pathlib.of_string (depth_file (file_path f)))
              = np_load fs (data config // pathlib.of_string (depth_file (file_path f)))
            /\ imageio_imread fs' (frame_fname config f)
               = imageio_imread fs (frame_fname config f)) fr ->
  forall st, for_frames config fs' st fr = for_frames config fs st fr.
Proof.
  induction 1 as [|f fr [Hl Hi] _ IH]; intros st; simpl; [reflexivity|].
  rewrite (loop_body_footprint _ _ _ _ _ Hl Hi).
  destruct (loop_body config fs st f); simpl; [apply IH | reflexivity].
Qed.

Lemma for_frames_scale_factor d a b s fs fr : forall st,
  for_frames {| data := d; scale_factor := a; scene_scale := s |} fs st fr
  = for_frames {| data := d; scale_factor := b; scene_scale := s |} fs st fr.
Proof.
  induction fr as [|f fr IH]; intros st; simpl; [reflexivity|].
  change (loop_body {| data := d; scale_factor := a; scene_scale := s |} fs st f)
    with (loop_body {| data := d; scale_factor := b; scene_scale := s |} fs st f).
  destruct (loop_body _ fs st f); simpl; [apply IH | reflexivity].
Qed.

Section Footprint.

Context {DistortionParams : Type}.
Variable get_distortion_params : R -> R -> R -> R -> DistortionParams.

(** X8. A parse reads two files per frame and no other: two filesystems
    that agree on the image path and on the depth path of every frame of
    the manifest give the same printed line and the same result or
    exception. *)
Theorem X8_reads_only_frame_files config fs fs' meta split :
  (forall f, f ∈ frames meta ->
     np_load fs' (data config // pathlib.of_string (depth_file (file_path f)))
       = np_load fs (data config // pathlib.of_string (depth_file (file_path f)))
     /\ imageio_imread fs' (frame_fname config f)
        = imageio_imread fs (frame_fname config f)) ->
  _generate_dataparser_outputs get_distortion_params config fs' meta split
  = _generate_dataparser_outputs get_distortion_params config fs meta split.
Proof.
  intros H. unfold _generate_dataparser_outputs.
  rewrite (for_frames_footprint config fs fs' (frames meta)); [reflexivity|].
  by apply Forall_forall.
Qed.

(** X9. The configured [scale_factor] is never used: two configurations
    with the same data directory and the same [scene_scale] give the same
    printed line and the same result or exception. *)
Theorem X9_scale_factor_is_ignored config config' fs meta split :
  data config' = data config ->
  scene_scale config' = scene_scale config ->
  _generate_dataparser_outputs get_distortion_params config' fs meta split
  = _generate_dataparser_outputs get_distortion_params config fs meta split.
Proof.
  destruct config as [d a s], config' as [d' a' s']. simpl. intros -> ->.
  unfold _generate_dataparser_outputs.
  rewrite (for_frames_scale_factor d a' a s). reflexivity.
Qed.

End Footprint.

(** The sample filesystem with an unrelated file added. *)
Lemma example_fs_extra_file (f : Frame) :
  f ∈ frames Example.meta ->
  np_load {| np_load := fun p =>
               if decide (p = pathlib.of_string "notes/readme.npy")
               then Some (np.Scalar 7) else np_load Example.fs p;
             imageio_imread := imageio_imread Example.fs |}
    (data Example.config // pathlib.of_string (depth_file (file_path f)))
  = np_load Example.fs
      (data Example.config // pathlib.of_string (depth_file (file_path f)))
  /\ imageio_imread Example.fs (frame_fname Example.config f)
     = imageio_imread Example.fs (frame_fname Example.config f).
Proof.
  intros ->%list_elem_of_singleton. split; reflexivity.
Qed.

Lemma X8_reads_only_frame_files_witness :
  _generate_dataparser_outputs Example.get_distortion_params Example.config
    {| np_load := fun p =>
         if decide (p = pathlib.of_string "notes/readme.npy")
         then Some (np.Scalar 7) else np_load Example.fs p;
       imageio_imread := imageio_imread Example.fs |}
    Example.meta "train"
  = _generate_dataparser_outputs Example.get_distortion_params Example.config
      Example.fs Example.meta "train".
Proof.
  exact (X8_reads_only_frame_files Example.get_distortion_params Example.config
           Example.fs _ Example.meta "train" example_fs_extra_file).
Defined.

Lemma X9_scale_factor_is_ignored_witness :
  _generate_dataparser_outputs Example.get_distortion_params
    {| data := Example.root; scale_factor := 7; scene_scale := 0.33 |}
    Example.fs Example.meta "train"
  = _generate_dataparser_outputs Example.get_distortion_params Example.config
      Example.fs Example.meta "train".
Proof.
  exact (X9_scale_factor_is_ignored Example.get_distortion_params Example.config
           {| data := Example.root; scale_factor := 7; scene_scale := 0.33 |}
           Example.fs Example.meta "train" eq_refl eq_refl).
Defined.

(** ** What a successful parse returns *)

Lemma dict_getitem_Ok_inv {V : Type} (m : gmap string V) k v :
  Py.dict_getitem m k = Ok v -> m !! k = Some v.
Proof. apply of_option_Ok_inv. Qed.

Lemma array3_Ok_inv (ms a : list np.matrix) :
  np.array3 ms = Ok a ->
  a = ms /\ forall m m', ms !! 0 = Some m -> m' ∈ ms -> np.shape2 m' = np.shape2 m.
Proof.
  unfold np.array3. destruct ms as [|m rest]; [intros [= <-]; split; [done|]; by intros|].
  destruct (forallb _ rest) eqn:Hall; [|discriminate].
  intros [= <-]. split; [reflexivity|].
  intros m0 m' [= <-] [->|Hin]%elem_of_cons; [reflexivity|].
  rewrite forallb_forall in Hall.
  apply list_elem_of_In, Hall, bool_decide_eq_true in Hin. exact Hin.
Qed.

Section Returns.

Context {DistortionParams : Type}.
Variable get_distortion_params : R -> R -> R -> R -> DistortionParams.

Lemma assemble_Ok_full config meta st out :
  assemble get_distortion_params config meta st = Ok out ->
  st_image_filenames st <> []
  /\ np.array3 (st_poses st) = Ok (st_poses st)
  /\ exists a k1 k2 p1 p2 s fl_x fl_y cx cy h w,
       np.imul_translation (scene_scale config) (st_poses st) = Ok a
       /\ fields meta !! "k1" = Some k1 /\ fields meta !! "k2" = Some k2
       /\ fields meta !! "p1" = Some p1 /\ fields meta !! "p2" = Some p2
       /\ fields meta !! "aabb_scale" = Some s
       /\ get_focal_lengths (fields meta) = Ok (fl_x, fl_y)
       /\ fields meta !! "cx" = Some cx /\ fields meta !! "cy" = Some cy
       /\ fields meta !! "h" = Some h /\ fields meta !! "w" = Some w
       /\ out =
          {| image_filenames := st_image_filenames st;
             cameras :=
               {| fx := fl_x; fy := fl_y; cx := cx; cy := cy;
                  distortion_params := get_distortion_params k1 k2 p1 p2;
                  height := Py.int h; width := Py.int w;
                  camera_to_worlds := np.top3 a;
                  camera_type := PERSPECTIVE |};
             scene_box := {| aabb := [[- s; - s; - s]; [s; s; s]]%R |};
             additional_inputs :=
               {[ "semantics" :=
                    {| func := get_depths; kwargs := {[ "depths" := st_depths st ]} |} ]};
             depths := st_depths st |}.
Proof.
  unfold assemble. intros H.
  destruct (length (st_image_filenames st) =? 0) eqn:Hlen; [discriminate|].
  apply Nat.eqb_neq in Hlen.
  ok_inv H. injection H as <-.
  apply array3_Ok_inv in Hv as Hv'. destruct Hv' as [-> _].
  repeat match goal with
  | H : Py.dict_getitem _ _ = Ok _ |- _ => apply dict_getitem_Ok_inv in H
  end.
  split; [by destruct (st_image_filenames st)|]. split; [assumption|].
  do 12 eexists. repeat split; eassumption.
Qed.

(** X10. On a successful parse the camera centre is the manifest's
    [cx], [cy]; the distortion parameters are built from its [k1], [k2],
    [p1], [p2]; the focal lengths are those [get_focal_lengths] returns
    for it, neither of them the sentinel 0; the camera type is
    perspective; and the scene box is the cube from [-aabb_scale] to
    [aabb_scale] on each axis. *)
Theorem X10_intrinsics_from_manifest config fs meta split out :
  snd (_generate_dataparser_outputs get_distortion_params config fs meta split) = Ok out ->
  exists k1 k2 p1 p2 s cx0 cy0,
    fields meta !! "k1" = Some k1 /\ fields meta !! "k2" = Some k2
    /\ fields meta !! "p1" = Some p1 /\ fields meta !! "p2" = Some p2
    /\ fields meta !! "aabb_scale" = Some s
    /\ fields meta !! "cx" = Some cx0 /\ fields meta !! "cy" = Some cy0
    /\ distortion_params (cameras out) = get_distortion_params k1 k2 p1 p2
    /\ cx (cameras out) = cx0 /\ cy (cameras out) = cy0
    /\ camera_type (cameras out) = PERSPECTIVE
    /\ scene_box out = {| aabb := [[- s; - s; - s]; [s; s; s]]%R |}
    /\ get_focal_lengths (fields meta) = Ok (fx (cameras out), fy (cameras out))
    /\ fx (cameras out) <> np.Fin 0 /\ fy (cameras out) <> np.Fin 0.
Proof.
  intros (st & _ & _ & Hasm)%parse_Ok_inv.
  apply assemble_Ok_full in Hasm
    as (_ & _ & a & k1 & k2 & p1 & p2 & s & fl_x & fl_y & cx0 & cy0 & h & w
        & _ & Hk1 & Hk2 & Hp1 & Hp2 & Hs & Hfl & Hcx & Hcy & _ & _ & ->).
  exists k1, k2, p1, p2, s, cx0, cy0. simpl.
  assert (fl_x <> np.Fin 0 /\ fl_y <> np.Fin 0) as [Hx Hy].
  { unfold get_focal_lengths in Hfl. ok_inv Hfl. injection Hfl as <- <-.
    match goal with H : _ || _ = false |- _ => apply orb_false_elim in H as [Hx Hy] end.
    split; intros E%eq_zero_true; congruence. }
  repeat split; assumption.
Qed.

End Returns.

Lemma X10_intrinsics_from_manifest_witness :
  snd (_generate_dataparser_outputs Example.get_distortion_params Example.config
         Example.fs Example.meta "train") = Ok Example.out
  /\ exists k1 k2 p1 p2 s cx0 cy0,
       fields Example.meta !! "k1" = Some k1 /\ fields Example.meta !! "k2" = Some k2
       /\ fields Example.meta !! "p1" = Some p1 /\ fields Example.meta !! "p2" = Some p2
       /\ fields Example.meta !! "aabb_scale" = Some s
       /\ fields Example.meta !! "cx" = Some cx0 /\ fields Example.meta !! "cy" = Some cy0
       /\ distortion_params (cameras Example.out)
          = Example.get_distortion_params k1 k2 p1 p2
       /\ cx (cameras Example.out) = cx0 /\ cy (cameras Example.out) = cy0
       /\ camera_type (cameras Example.out) = PERSPECTIVE
       /\ scene_box Example.out = {| aabb := [[- s; - s; - s]; [s; s; s]]%R |}
       /\ get_focal_lengths (fields Example.meta)
          = Ok (fx (cameras Example.out), fy (cameras Example.out))
       /\ fx (cameras Example.out) <> np.Fin 0 /\ fy (cameras Example.out) <> np.Fin 0.
Proof.
  split; [exact example_parse_snd|].
  exact (X10_intrinsics_from_manifest _ _ _ _ _ _ example_parse_snd).
Defined.

(** ** The shape of the poses *)

Lemma regular_has_shape (m : np.matrix) (r c : nat) :
  np.regular m = true -> np.shape2 m = [r; c] -> has_shape r c m.
Proof.
  destruct m as [|row rest]; simpl; [discriminate|].
  intros Hreg [= <- <-]. split; [reflexivity|].
  constructor; [reflexivity|].
  apply Forall_forall. intros row' Hin. rewrite forallb_forall in Hreg.
  apply list_elem_of_In, Hreg in Hin. by apply Nat.eqb_eq.
Qed.

Lemma has_shape_shape2 (m : np.matrix) (r c : nat) :
  1 <= r -> has_shape r c m -> np.shape2 m = [r; c] /\ np.regular m = true.
Proof.
  intros Hr [Hlen Hrows]. destruct m as [|row rest]; simpl in *; [lia|].
  apply Forall_cons in Hrows as [Hrow Hrest]. rewrite Hlen, Hrow. split; [reflexivity|].
  apply forallb_forall. intros row' Hin%list_elem_of_In.
  rewrite Forall_forall in Hrest. apply Nat.eqb_eq. by apply Hrest.
Qed.

Lemma imul_translation_Ok_first (s : R) (a a' : list np.matrix) :
  np.imul_translation s a = Ok a' ->
  exists m row, a !! 0 = Some m /\ m !! 0 = Some row /\ 3 < length row.
Proof.
  unfold np.imul_translation. destruct a as [|[|row m] a]; try discriminate.
  destruct (Nat.ltb_spec 3 (length row)); [|discriminate].
  intros _. by exists (row :: m), row.
Qed.

Lemma c2w_has_shape (s : R) (m : np.matrix) (r c : nat) :
  has_shape r c m ->
  has_shape (min 3 r) c
    (take 3 (imap (fun i row => if i <? 3 then alter (fun x => (x * s)%R) 3 row else row) m)).
Proof.
  intros [Hlen Hrows]. split; [by rewrite c2w_rows, Hlen|].
  apply Forall_take, Forall_lookup. intros i row Hi.
  rewrite list_lookup_imap in Hi.
  destruct (m !! i) as [row0|] eqn:E; [|discriminate]. simpl in Hi. injection Hi as <-.
  rewrite Forall_lookup in Hrows. specialize (Hrows i row0 E).
  destruct (i <? 3); [by rewrite length_alter | assumption].
Qed.

Section Shapes.

Context {DistortionParams : Type}.
Variable get_distortion_params : R -> R -> R -> R -> DistortionParams.

(** X11. A parse succeeds only if all poses of the manifest are
    rectangular and of one shape, with at least one row and at least four
    columns; every camera-to-world transform returned then has the first
    three of those rows (all of them, if fewer) and all of those
    columns. *)
Theorem X11_poses_have_one_shape config fs meta split out :
  snd (_generate_dataparser_outputs get_distortion_params config fs meta split) = Ok out ->
  exists r c,
    1 <= r /\ 4 <= c
    /\ Forall (fun f => has_shape r c (transform_matrix f)) (frames meta)
    /\ Forall (has_shape (min 3 r) c) (camera_to_worlds (cameras out)).
Proof.
  intros (st & Hloop & _ & Hasm)%parse_Ok_inv.
  pose proof (for_frames_frame_ok _ _ _ _ _ Hloop) as Hok.
  apply for_frames_spec in Hloop as (_ & Hp & _). rewrite retained_all in Hp. simpl in Hp.
  apply assemble_Ok_full in Hasm
    as (_ & Harr & a & k1 & k2 & p1 & p2 & s & fl_x & fl_y & cx0 & cy0 & h & w
        & Hmul & _ & _ & _ & _ & _ & _ & _ & _ & _ & _ & ->).
  simpl. rewrite Hp in Harr, Hmul.
  apply array3_Ok_inv in Harr as [_ Hsame].
  destruct (imul_translation_Ok_first _ _ _ Hmul) as (m0 & row0 & Hm0 & Hrow0 & Hc).
  apply imul_translation_Ok_inv in Hmul as ->.
  exists (length m0), (length row0).
  assert (np.shape2 m0 = [length m0; length row0]) as Hshape.
  { destruct m0 as [|x m0]; [discriminate|]. by injection Hrow0 as ->. }
  assert (Forall (fun f => has_shape (length m0) (length row0) (transform_matrix f))
            (frames meta)) as Hall.
  { apply Forall_forall. intros f Hf.
    rewrite Forall_forall in Hok. destruct (Hok f Hf) as (Hreg & _).
    apply regular_has_shape; [assumption|]. rewrite <- Hshape.
    apply (Hsame m0 (transform_matrix f) Hm0). by apply list_elem_of_fmap_2. }
  split; [destruct m0; [discriminate | simpl; lia]|]. split; [lia|].
  split; [assumption|].
  unfold np.top3. rewrite !Forall_fmap.
  eapply Forall_impl; [exact Hall|].
  intros f Hf. simpl. by apply c2w_has_shape.
Qed.

End Shapes.

Lemma X11_poses_have_one_shape_witness :
  snd (_generate_dataparser_outputs Example.get_distortion_params Example.config
         Example.fs Example.meta "train") = Ok Example.out
  /\ exists r c,
       1 <= r /\ 4 <= c
       /\ Forall (fun f => has_shape r c (transform_matrix f)) (frames Example.meta)
       /\ Forall (has_shape (min 3 r) c) (camera_to_worlds (cameras Example.out)).
Proof.
  split; [exact example_parse_snd|].
  exact (X11_poses_have_one_shape _ _ _ _ _ _ example_parse_snd).
Defined.

(** ** Sufficient conditions for success, and the order of the failures *)

Lemma poses_stack (s : R) (ms : list np.matrix) (r c : nat) :
  ms <> [] -> 1 <= r -> 4 <= c -> Forall (has_shape r c) ms ->
  np.array3 ms = Ok ms
  /\ np.imul_translation s ms =
     Ok (imap (fun i row => if i <? 3 then alter (fun x => (x * s)%R) 3 row else row) <$> ms).
Proof.
  intros Hne Hr Hc Hall. destruct ms as [|m rest]; [done|].
  apply Forall_cons in Hall as [Hm Hrest].
  destruct (has_shape_shape2 m r c Hr Hm) as [Hshape _]. split.
  - unfold np.array3.
    replace (forallb (fun m' => bool_decide (np.shape2 m' = np.shape2 m)) rest) with true;
      [reflexivity|].
    symmetry. apply forallb_forall. intros m' Hin%list_elem_of_In.
    rewrite Forall_forall in Hrest. apply bool_decide_eq_true.
    destruct (has_shape_shape2 m' r c Hr (Hrest m' Hin)) as [-> _]. by rewrite Hshape.
  - unfold np.imul_translation. destruct Hm as [Hlen Hrows].
    destruct m as [|row m]; [simpl in Hlen; lia|].
    apply Forall_cons in Hrows as [Hrow _].
    destruct (Nat.ltb_spec 3 (length row)); [reflexivity | lia].
Qed.

Section Success.

Context {DistortionParams : Type}.
Variable get_distortion_params : R -> R -> R -> R -> DistortionParams.

(** X12. A parse succeeds whenever the manifest has at least one frame,
    every frame has its depth file and its image readable as the loop
    needs them, the poses have one shape with at least one row and four
    columns, the nine scalar keys are present and the focal lengths
    resolve. It then prints the line reporting 0 skipped files and
    returns one image path, one transform and one depth array per frame,
    in manifest order. *)
Theorem X12_parse_succeeds config fs meta split r c k1 k2 p1 p2 s fl_x fl_y cx0 cy0 h w :
  frames meta <> [] ->
  Forall (frame_ok config fs) (frames meta) ->
  1 <= r -> 4 <= c ->
  Forall (fun f => has_shape r c (transform_matrix f)) (frames meta) ->
  fields meta !! "k1" = Some k1 -> fields meta !! "k2" = Some k2 ->
  fields meta !! "p1" = Some p1 -> fields meta !! "p2" = Some p2 ->
  fields meta !! "aabb_scale" = Some s ->
  get_focal_lengths (fields meta) = Ok (fl_x, fl_y) ->
  fields meta !! "cx" = Some cx0 -> fields meta !! "cy" = Some cy0 ->
  fields meta !! "h" = Some h -> fields meta !! "w" = Some w ->
  exists ds,
    Forall2 (frame_depth config fs) (frames meta) ds
    /\ _generate_dataparser_outputs get_distortion_params config fs meta split =
       ([skip_message 0 split],
        Ok {| image_filenames := frame_fname config <$> frames meta;
              cameras :=
                {| fx := fl_x; fy := fl_y; cx := cx0; cy := cy0;
                   distortion_params := get_distortion_params k1 k2 p1 p2;
                   height := Py.int h; width := Py.int w;
                   camera_to_worlds :=
                     (fun f => take 3 (imap (fun i row =>
                                               if i <? 3
                                               then alter (fun x => (x * scene_scale config)%R) 3 row
                                               else row) (transform_matrix f)))
                       <$> frames meta;
                   camera_type := PERSPECTIVE |};
              scene_box := {| aabb := [[- s; - s; - s]; [s; s; s]]%R |};
              additional_inputs :=
                {[ "semantics" := {| func := get_depths; kwargs := {[ "depths" := ds ]} |} ]};
              depths := ds |}).
Proof.
  intros Hne Hok Hr Hc Hshape Hk1 Hk2 Hp1 Hp2 Hs Hfl Hcx Hcy Hh Hw.
  destruct (for_frames_complete config fs (frames meta) loop_init Hok) as (ds & Hds & Hloop).
  exists ds. split; [assumption|].
  unfold _generate_dataparser_outputs. rewrite Hloop. simpl.
  destruct (poses_stack (scene_scale config) (transform_matrix <$> frames meta) r c)
    as [Harr Hmul]; [by destruct (frames meta) | assumption | assumption
                    | by rewrite Forall_fmap |].
  f_equal.
  erewrite (assemble_Ok get_distortion_params config meta _ _ k1 k2 p1 p2 s fl_x fl_y
              cx0 cy0 h w); simpl; try eassumption.
  - unfold np.top3. by rewrite <- !list_fmap_compose.
  - by destruct (frames meta).
Qed.

End Success.

Lemma example_frame0_shape :
  Forall (fun f => has_shape 4 4 (transform_matrix f)) (frames Example.meta).
Proof. repeat constructor. Qed.

Lemma X12_parse_succeeds_witness :
  exists ds out,
    Forall2 (frame_depth Example.config Example.fs) (frames Example.meta) ds
    /\ _generate_dataparser_outputs Example.get_distortion_params Example.config
         Example.fs Example.meta "train"
       = ([skip_message 0 "train"], Ok out)
    /\ depths out = ds
    /\ image_filenames out = frame_fname Example.config <$> frames Example.meta.
Proof.
  destruct (X12_parse_succeeds Example.get_distortion_params Example.config Example.fs
              Example.meta "train" 4 4 0 0 0 0 4 (np.Fin 50) (np.Fin 60) 400 300 600 800)
    as (ds & Hds & Hparse);
    [ discriminate
    | constructor; [exact example_frame0_ok | constructor]
    | lia | lia
    | exact example_frame0_shape
    | reflexivity | reflexivity | reflexivity | reflexivity | reflexivity
    | exact example_intrinsics_focal
    | reflexivity | reflexivity | reflexivity | reflexivity | ].
  eexists ds, _. split; [exact Hds|]. split; [exact Hparse|]. split; reflexivity.
Defined.

Lemma array3_same_shape (ms : list np.matrix) (r c : nat) :
  1 <= r -> Forall (has_shape r c) ms -> np.array3 ms = Ok ms.
Proof.
  intros Hr Hall. unfold np.array3. destruct ms as [|m rest]; [reflexivity|].
  apply Forall_cons in Hall as [Hm Hrest].
  destruct (has_shape_shape2 m r c Hr Hm) as [Hshape _].
  destruct (forallb _ rest) eqn:E; [reflexivity|].
  apply not_true_iff_false in E. contradict E.
  apply forallb_forall. intros m' Hin%list_elem_of_In.
  rewrite Forall_forall in Hrest. apply bool_decide_eq_true.
  destruct (has_shape_shape2 m' r c Hr (Hrest m' Hin)) as [-> _]. by rewrite Hshape.
Qed.

Lemma array3_mismatch (ms : list np.matrix) (m0 m : np.matrix) :
  ms !! 0 = Some m0 -> m ∈ ms -> np.shape2 m <> np.shape2 m0 ->
  np.array3 ms = Raise ValueError.
Proof.
  intros H0 Hin Hne. unfold np.array3.
  destruct ms as [|m0' rest]; [discriminate|]. injection H0 as ->.
  apply elem_of_cons in Hin as [->|Hin]; [done|].
  destruct (forallb _ rest) eqn:E; [|reflexivity].
  rewrite forallb_forall in E.
  apply list_elem_of_In, E, bool_decide_eq_true in Hin. contradiction.
Qed.

Lemma imul_translation_few_columns (s : R) (ms : list np.matrix) (r c : nat) :
  ms <> [] -> 1 <= r -> c < 4 -> Forall (has_shape r c) ms ->
  np.imul_translation s ms = Raise IndexError.
Proof.
  intros Hne Hr Hc Hall. destruct ms as [|m rest]; [done|].
  apply Forall_cons in Hall as [[Hlen Hrows] _].
  unfold np.imul_translation.
  destruct m as [|row m]; [reflexivity|].
  apply Forall_cons in Hrows as [Hrow _].
  destruct (Nat.ltb_spec 3 (length row)); [lia | reflexivity].
Qed.

Section FailureOrder.

Context {DistortionParams : Type}.
Variable get_distortion_params : R -> R -> R -> R -> DistortionParams.

(** After a completed loop over well-shaped poses, the method is at the
    reads of the scalar keys. *)
Lemma parse_after_poses config fs meta split r c :
  frames meta <> [] ->
  Forall (frame_ok config fs) (frames meta) ->
  1 <= r -> 4 <= c ->
  Forall (fun f => has_shape r c (transform_matrix f)) (frames meta) ->
  exists st a,
    st_image_filenames st <> []
    /\ np.array3 (st_poses st) = Ok (st_poses st)
    /\ np.imul_translation (scene_scale config) (st_poses st) = Ok a
    /\ _generate_dataparser_outputs get_distortion_params config fs meta split
       = ([skip_message 0 split], assemble get_distortion_params config meta st).
Proof.
  intros Hne Hok Hr Hc Hshape.
  destruct (for_frames_complete config fs (frames meta) loop_init Hok) as (ds & Hds & Hloop).
  destruct (poses_stack (scene_scale config) (transform_matrix <$> frames meta) r c)
    as [Harr Hmul]; [by destruct (frames meta) | assumption | assumption
                    | by rewrite Forall_fmap |].
  eexists _, _. split; [|split; [|split]].
  4: { unfold _generate_dataparser_outputs. rewrite Hloop. reflexivity. }
  - simpl. by destruct (frames meta).
  - exact Harr.
  - exact Hmul.
Qed.

(** X13. Once the loop has completed over well-shaped poses, the scalar
    keys are read in a fixed order and the first failure wins: a missing
    "k1" is reported whatever else is missing; a missing "aabb_scale" is
    reported before the focal lengths are looked at; a focal-length
    failure is reported before "cx", "cy", "h" and "w" are read; and a
    missing "cx" is reported only after the focal lengths resolved. *)
Theorem X13_failure_order config fs meta split r c :
  frames meta <> [] ->
  Forall (frame_ok config fs) (frames meta) ->
  1 <= r -> 4 <= c ->
  Forall (fun f => has_shape r c (transform_matrix f)) (frames meta) ->
  (fields meta !! "k1" = None ->
   snd (_generate_dataparser_outputs get_distortion_params config fs meta split)
   = Raise (KeyError "k1"))
  /\ (is_Some (fields meta !! "k1") -> is_Some (fields meta !! "k2") ->
      is_Some (fields meta !! "p1") -> is_Some (fields meta !! "p2") ->
      (fields meta !! "aabb_scale" = None ->
       snd (_generate_dataparser_outputs get_distortion_params config fs meta split)
       = Raise (KeyError "aabb_scale"))
      /\ (is_Some (fields meta !! "aabb_scale") ->
          (forall e, get_focal_lengths (fields meta) = Raise e ->
             snd (_generate_dataparser_outputs get_distortion_params config fs meta split)
             = Raise e)
          /\ (forall fl, get_focal_lengths (fields meta) = Ok fl ->
                fields meta !! "cx" = None ->
                snd (_generate_dataparser_outputs get_distortion_params config fs meta split)
                = Raise (KeyError "cx")))).
Proof.
  intros Hne Hok Hr Hc Hshape.
  destruct (parse_after_poses config fs meta split r c Hne Hok Hr Hc Hshape)
    as (st & a & Hst & Harr & Hmul & ->).
  simpl. unfold assemble.
  destruct (st_image_filenames st) as [|p ps]; [done|]. simpl length. simpl Nat.eqb.
  cbv iota. rewrite Harr. simpl. rewrite Hmul. simpl.
  unfold Py.dict_getitem. split.
  - by intros ->.
  - intros [k1 ->] [k2 ->] [p1 ->] [p2 ->]. simpl. split.
    + by intros ->.
    + intros [s ->]. simpl. split.
      * by intros e ->.
      * intros [fl_x fl_y] -> Hcx. simpl. by rewrite Hcx.
Qed.

Lemma assemble_pose_errors config meta st e :
  st_image_filenames st <> [] ->
  (np.array3 (st_poses st) = Raise e
   \/ (np.array3 (st_poses st) = Ok (st_poses st)
       /\ np.imul_translation (scene_scale config) (st_poses st) = Raise e)) ->
  assemble get_distortion_params config meta st = Raise e.
Proof.
  intros Hne H. unfold assemble.
  destruct (st_image_filenames st) as [|p ps]; [done|]. simpl length. simpl Nat.eqb.
  cbv iota. destruct H as [-> | [Ha Hm]]; [reflexivity|].
  rewrite Ha. simpl. by rewrite Hm.
Qed.

(** X14. The shape of the poses is checked before any scalar key is
    read: after a completed loop, poses of one shape with fewer than four
    columns make the parse raise [IndexError], and a pose whose shape
    differs from that of the first frame makes it raise [ValueError],
    whatever the scalar entries are; the line reporting 0 skipped files
    has been printed in both cases. *)
Theorem X14_pose_shape_errors config fs meta split :
  Forall (frame_ok config fs) (frames meta) ->
  (forall r c,
      frames meta <> [] -> 1 <= r -> c < 4 ->
      Forall (fun f => has_shape r c (transform_matrix f)) (frames meta) ->
      _generate_dataparser_outputs get_distortion_params config fs meta split
      = ([skip_message 0 split], Raise IndexError))
  /\ (forall f0 f,
        frames meta !! 0 = Some f0 -> f ∈ frames meta ->
        np.shape2 (transform_matrix f) <> np.shape2 (transform_matrix f0) ->
        _generate_dataparser_outputs get_distortion_params config fs meta split
        = ([skip_message 0 split], Raise ValueError)).
Proof.
  intros Hok.
  destruct (for_frames_complete config fs (frames meta) loop_init Hok) as (ds & Hds & Hloop).
  unfold _generate_dataparser_outputs. rewrite Hloop. cbv beta iota.
  change (0 <=? st_num_skipped _) with true. cbv iota.
  split.
  - intros r c Hne Hr Hc Hshape. f_equal.
    apply assemble_pose_errors; [simpl; by destruct (frames meta)|].
    right. simpl. split.
    + by apply (array3_same_shape _ r c); [|rewrite Forall_fmap].
    + apply (imul_translation_few_columns _ _ r c); try assumption;
        [by destruct (frames meta) | by rewrite Forall_fmap].
  - intros f0 f H0 Hin Hne. f_equal.
    apply assemble_pose_errors; [simpl; by destruct (frames meta)|].
    left. simpl. apply (array3_mismatch _ (transform_matrix f0) (transform_matrix f)).
    + by rewrite list_lookup_fmap, H0.
    + by apply list_elem_of_fmap_2.
    + assumption.
Qed.

End FailureOrder.

(** The sample manifest without "k1", and with a 3x3 pose. *)
Lemma X13_failure_order_witness :
  delete "k1" Example.intrinsics !! "k1" = None
  /\ snd (_generate_dataparser_outputs Example.get_distortion_params Example.config
            Example.fs
            {| frames := [Example.frame0]; fields := delete "k1" Example.intrinsics |}
            "train")
     = Raise (KeyError "k1").
Proof.
  assert (delete "k1" Example.intrinsics !! "k1" = None) as Hk1 by reflexivity.
  split; [exact Hk1|].
  refine (proj1 (X13_failure_order Example.get_distortion_params Example.config Example.fs
                   {| frames := [Example.frame0]; fields := delete "k1" Example.intrinsics |}
                   "train" 4 4 _ _ _ _ _) Hk1).
  - discriminate.
  - constructor; [exact example_frame0_ok | constructor].
  - lia.
  - lia.
  - exact example_frame0_shape.
Defined.

Lemma example_frame_3x3_ok :
  frame_ok Example.config Example.fs
    {| file_path := "images/0001.png";
       transform_matrix := [[1; 0; 0]; [0; 1; 0]; [0; 0; 1]]%R |}.
Proof.
  split; [reflexivity|]. split.
  - exists Example.depth_map, Example.disp, (np.Array [Example.depth_map]).
    split; [reflexivity|]. split; reflexivity.
  - exists Example.picture. split; [reflexivity | simpl; lia].
Qed.

Lemma X14_pose_shape_errors_witness :
  _generate_dataparser_outputs Example.get_distortion_params Example.config Example.fs
    {| frames := [ {| file_path := "images/0001.png";
                      transform_matrix := [[1; 0; 0]; [0; 1; 0]; [0; 0; 1]]%R |} ];
       fields := Example.intrinsics |}
    "train"
  = ([skip_message 0 "train"], Raise IndexError).
Proof.
  refine (proj1 (X14_pose_shape_errors Example.get_distortion_params Example.config
                   Example.fs _ "train" _) 3 3 _ _ _ _).
  - constructor; [exact example_frame_3x3_ok | constructor].
  - discriminate.
  - lia.
  - lia.
  - repeat constructor.
Defined.
